(** * thinFilmCalc: a shallow embedding of [thinFilmCalc.cpp]

    The program is a console calculator: a [Thin_film] record (material
    name, refractive index, spectral range, number of maxima), a library
    of such records kept in the text file [films.txt], a measurement log
    [data.txt], and a menu loop over standard input.

    C++ [double] is IEEE 754 binary64 and is embedded as Rocq's primitive
    [float] (the same format, round to nearest even).  Streams are
    embedded as the text still to be read together with their state
    bits, files as a finite map from file names to their text. *)

From Stdlib Require Import ZArith Lia List Ascii String Bool DecimalString.
From Stdlib Require Import Floats.
From stdpp Require Import base option list strings gmap.

Local Open Scope Z_scope.
Set Warnings "-inexact-float".

(** ** The record [Thin_film] *)

Abbreviation text := (list ascii).

Record Thin_film := mkFilm {
  mat : text;
  spectralRange : float;
  index : float;
  numberOfMaxima : float
}.

(** [Thin_film::Thin_film()] *)
Definition Thin_film_default : Thin_film :=
  mkFilm [] 0%float 0%float 0%float.

Definition getMat (f : Thin_film) : text := mat f.
Definition getIndex (f : Thin_film) : float := index f.

(** [Thin_film::getThickness] *)
Definition getThickness (f : Thin_film) : float :=
  ((numberOfMaxima f * spectralRange f) / 2 *
   PrimFloat.sqrt (index f * index f - 1))%float.

Definition setMat (newMat : text) (f : Thin_film) : Thin_film :=
  mkFilm newMat (spectralRange f) (index f) (numberOfMaxima f).

Definition setspectralRange (newSpectralRange : float) (f : Thin_film) : Thin_film :=
  if (newSpectralRange <? 0)%float
  then mkFilm (mat f) 0%float (index f) (numberOfMaxima f)
  else mkFilm (mat f) newSpectralRange (index f) (numberOfMaxima f).

Definition setIndex (newIndex : float) (f : Thin_film) : Thin_film :=
  if (newIndex <? 0)%float
  then mkFilm (mat f) (spectralRange f) 0%float (numberOfMaxima f)
  else mkFilm (mat f) (spectralRange f) newIndex (numberOfMaxima f).

Definition setnumberOfMaxima (newMaxima : float) (f : Thin_film) : Thin_film :=
  if (newMaxima <? 0)%float
  then mkFilm (mat f) (spectralRange f) (index f) 0%float
  else mkFilm (mat f) (spectralRange f) (index f) newMaxima.

(** ** Characters and decimal numerals *)

Definition T (s : string) : text := list_ascii_of_string s.

Definition nl : ascii := Ascii.ascii_of_nat 10.

(** [isspace] in the "C" locale: space, and the controls 9 to 13. *)
Definition isspace (c : ascii) : bool :=
  let n := nat_of_ascii c in
  (n =? 32)%nat || ((9 <=? n)%nat && (n <=? 13)%nat).

Definition is_digit (c : ascii) : bool :=
  let n := nat_of_ascii c in (48 <=? n)%nat && (n <=? 57)%nat.

Definition digit_val (c : ascii) : Z := Z.of_nat (nat_of_ascii c) - 48.

Definition is_char (a b : ascii) : bool := Ascii.eqb a b.

Fixpoint skip_while (p : ascii -> bool) (b : text) : text :=
  match b with
  | c :: r => if p c then skip_while p r else b
  | [] => []
  end.

Fixpoint take_while (p : ascii -> bool) (b : text) : text :=
  match b with
  | c :: r => if p c then c :: take_while p r else []
  | [] => []
  end.

Fixpoint digits_val (acc : Z) (ds : text) : Z :=
  match ds with
  | d :: r => digits_val (10 * acc + digit_val d) r
  | [] => acc
  end.

(** The decimal digits of a natural number, without leading zeros
    (["0"] for zero). *)
Definition dec (n : Z) : text :=
  list_ascii_of_string (NilZero.string_of_uint (N.to_uint (Z.to_N n))).

(** ** Text to [double]: what [num_get] and [strtod] compute

    A decimal numeral [m * 10^e10] is converted to the nearest binary64
    value, ties to even, as glibc's [strtod] does. *)

Definition dec_to_SF (neg : bool) (m e10 : Z) : spec_float :=
  match m with
  | Z0 => S754_zero neg
  | Zpos _ =>
      if 0 <=? e10 then
        binary_normalize prec emax (if neg then - (m * 10 ^ e10) else m * 10 ^ e10) 0 false
      else
        let '(q, e, l) := SFdiv_core_binary prec emax m 0 (10 ^ (- e10)) 0 in
        binary_round_aux prec emax neg q e l
  | Zneg _ => S754_nan
  end.

Definition DBL_MAX : float := 0x1.fffffffffffffp+1023%float.

(** The pieces of the numeral that [_M_extract_float] collected:
    sign, digits before and after the point, exponent sign and digits. *)
Record numeral := mkNumeral {
  num_neg : bool;
  num_int : text;
  num_frac : text;
  num_has_exp : bool;
  num_exp_neg : bool;
  num_exp : text
}.

Definition split_sign (s : text) : bool * text :=
  match s with
  | c :: r => if is_char c "-" then (true, r) else if is_char c "+" then (false, r) else (false, s)
  | [] => (false, [])
  end.

(** [strtod] on the extracted characters: [None] when it would not
    consume all of them. *)
Definition parse_numeral (xtrc : text) : option numeral :=
  let '(neg, s1) := split_sign xtrc in
  let ip := take_while is_digit s1 in
  let s2 := skip_while is_digit s1 in
  let '(fp, s3) :=
    match s2 with
    | c :: r => if is_char c "." then (take_while is_digit r, skip_while is_digit r) else ([], s2)
    | [] => ([], [])
    end in
  match ip ++ fp with
  | [] => None
  | _ :: _ =>
      match s3 with
      | [] => Some (mkNumeral neg ip fp false false [])
      | c :: r =>
          if is_char c "e" then
            let '(eneg, s4) := split_sign r in
            match take_while is_digit s4, skip_while is_digit s4 with
            | (_ :: _) as ed, [] => Some (mkNumeral neg ip fp true eneg ed)
            | _, _ => None
            end
          else None
      end
  end.

Definition numeral_to_SF (n : numeral) : spec_float :=
  let m := digits_val 0 (num_int n ++ num_frac n) in
  let e := if num_has_exp n
           then (if num_exp_neg n then - digits_val 0 (num_exp n) else digits_val 0 (num_exp n))
           else 0 in
  dec_to_SF (num_neg n) m (e - Z.of_nat (length (num_frac n))).

(** [__convert_to_v] for [double]: the value stored and whether
    [failbit] is raised. *)
Definition convert_to_v (xtrc : text) : float * bool :=
  match parse_numeral xtrc with
  | None => (0%float, true)
  | Some n =>
      match numeral_to_SF n with
      | S754_infinity false => (DBL_MAX, true)
      | S754_infinity true => ((- DBL_MAX)%float, true)
      | sf => (SF2Prim sf, false)
      end
  end.

(** [_M_extract_float] in the "C" locale: the characters collected for
    [strtod] and the rest of the buffer. *)
Fixpoint extract_float_loop (found_mantissa found_dec found_sci : bool) (b : text)
  : text * text :=
  match b with
  | [] => ([], [])
  | c :: r =>
      if is_digit c then
        let '(x, rest) := extract_float_loop true found_dec found_sci r in (c :: x, rest)
      else if is_char c "." && negb found_dec && negb found_sci then
        let '(x, rest) := extract_float_loop found_mantissa true found_sci r in (c :: x, rest)
      else if (is_char c "e" || is_char c "E") && negb found_sci && found_mantissa then
        match r with
        | [] => ([ "e"%char ], [])
        | c' :: r' =>
            if is_char c' "+" || is_char c' "-" then
              let '(x, rest) := extract_float_loop found_mantissa found_dec true r' in
              ("e"%char :: c' :: x, rest)
            else
              let '(x, rest) := extract_float_loop found_mantissa found_dec true r in
              ("e"%char :: x, rest)
        end
      else ([], b)
  end.

Definition extract_float (b : text) : text * text :=
  let '(sign, b1) :=
    match b with
    | c :: r => if is_char c "+" || is_char c "-" then ([c], r) else ([], b)
    | [] => ([], [])
    end in
  let b2 := skip_while (fun c => is_char c "0") b1 in
  let found_zero := negb (Nat.eqb (length b2) (length b1)) in
  let '(x, rest) := extract_float_loop found_zero false false b2 in
  (sign ++ (if found_zero then [ "0"%char ] else []) ++ x, rest).

(** [_M_extract_int] for [long], base 10: value, [failbit], rest. *)
Definition LONG_MAX : Z := 2 ^ 63 - 1.
Definition LONG_MIN : Z := - 2 ^ 63.
Definition INT_MAX : Z := 2 ^ 31 - 1.
Definition INT_MIN : Z := - 2 ^ 31.

Definition extract_long (b : text) : Z * bool * text :=
  let '(neg, b1) :=
    match b with
    | c :: r => if is_char c "-" then (true, r) else if is_char c "+" then (false, r) else (false, b)
    | [] => (false, [])
    end in
  let ds := take_while is_digit b1 in
  let rest := skip_while is_digit b1 in
  match ds with
  | [] => (0, true, rest)
  | _ :: _ =>
      let v := digits_val 0 ds in
      if neg then (if v <=? - LONG_MIN then (- v, false, rest) else (LONG_MIN, true, rest))
      else (if v <=? LONG_MAX then (v, false, rest) else (LONG_MAX, true, rest))
  end.

(** ** [double] to text: what [num_put] and [printf] compute *)

Definition round_half_even_div (a b : Z) : Z :=
  let q := a / b in
  match 2 * (a mod b) ?= b with
  | Lt => q
  | Gt => q + 1
  | Eq => if Z.even q then q else q + 1
  end.

(** The exact value of a finite float, as a fraction. *)
Definition SF_fraction (m : positive) (e : Z) : Z * Z :=
  if 0 <=? e then (Z.pos m * 2 ^ e, 1) else (Z.pos m, 2 ^ (- e)).

Definition sign_text (s : bool) : text := if s then T "-" else [].

(** The text of a NaN.  A binary64 NaN has a sign bit, which [printf]
    shows, and Rocq's floats have a single NaN.  No extraction stores a
    NaN ([num_get] reads digits only), so a NaN the program prints is
    one its own arithmetic made (the square root of a negative number,
    infinity times zero); on x86-64 such a NaN has its sign bit set and
    glibc prints it as [-nan]. *)
Definition nan_text : text := T "-nan".

Definition zeros (n : Z) : text := repeat "0"%char (Z.to_nat n).

(** [n] written with exactly [p] digits ([n < 10^p]). *)
Definition pad0 (p n : Z) : text := tail (dec (10 ^ p + n)).

(** ["%.pf"] of the non-negative fraction [num/den]. *)
Definition fmt_fixed_abs (p num den : Z) : text :=
  let n := round_half_even_div (num * 10 ^ p) den in
  dec (n / 10 ^ p) ++ (if p =? 0 then [] else "."%char :: pad0 p (n mod 10 ^ p)).

Definition fmt_fixed (p : Z) (x : float) : text :=
  match Prim2SF x with
  | S754_nan => nan_text
  | S754_infinity s => sign_text s ++ T "inf"
  | S754_zero s => sign_text s ++ fmt_fixed_abs p 0 1
  | S754_finite s m e =>
      let '(num, den) := SF_fraction m e in sign_text s ++ fmt_fixed_abs p num den
  end.

Fixpoint strip_zeros_rev (r : text) : text :=
  match r with
  | c :: r' => if is_char c "0" then strip_zeros_rev r' else r
  | [] => []
  end.

Definition strip_trailing_zeros (s : text) : text := rev (strip_zeros_rev (rev s)).

Definition with_point (ip frac : text) : text :=
  match frac with
  | [] => ip
  | _ :: _ => ip ++ "."%char :: frac
  end.

(** The decimal exponent of [num/den]: the largest [x] with
    [10^x <= num/den]. *)
Definition dec_exponent (num den : Z) : Z :=
  let x := Z.of_nat (length (dec num)) - Z.of_nat (length (dec den)) in
  let ge := if 0 <=? x then den * 10 ^ x <=? num else den <=? num * 10 ^ (- x) in
  if ge then x else x - 1.

(** ["%.Pg"] of the positive fraction [num/den]. *)
Definition fmt_general_abs (P num den : Z) : text :=
  let P := if P =? 0 then 1 else P in
  let x0 := dec_exponent num den in
  let k := P - 1 - x0 in
  let d0 := if 0 <=? k then round_half_even_div (num * 10 ^ k) den
            else round_half_even_div num (den * 10 ^ (- k)) in
  let '(d, x) := if 10 ^ P <=? d0 then (d0 / 10, x0 + 1) else (d0, x0) in
  let ds := dec d in
  if (x <? -4) || (P <=? x) then
    with_point (firstn 1 ds) (strip_trailing_zeros (skipn 1 ds)) ++
    "e"%char :: (if x <? 0 then "-"%char else "+"%char) ::
    (if Z.abs x <? 10 then "0"%char :: dec (Z.abs x) else dec (Z.abs x))
  else if 0 <=? x then
    with_point (firstn (Z.to_nat (x + 1)) ds) (strip_trailing_zeros (skipn (Z.to_nat (x + 1)) ds))
  else
    T "0." ++ zeros (- x - 1) ++ strip_trailing_zeros ds.

Definition fmt_general (P : Z) (x : float) : text :=
  match Prim2SF x with
  | S754_nan => nan_text
  | S754_infinity s => sign_text s ++ T "inf"
  | S754_zero s => sign_text s ++ T "0"
  | S754_finite s m e =>
      let '(num, den) := SF_fraction m e in sign_text s ++ fmt_general_abs P num den
  end.

Definition fmt_int (n : Z) : text :=
  if n <? 0 then "-"%char :: dec (- n) else dec n.

(** ** Input streams

    An [istream] is the text not yet read and the state bits [eofbit]
    and [failbit]; the program never clears them.  The operations
    follow the GNU C++ library in the "C" locale. *)

Record istream := mkIn { ibuf : text; eofbit : bool; failbit : bool }.

Definition good (s : istream) : bool := negb (eofbit s) && negb (failbit s).

Definition setstate (eof fail : bool) (s : istream) : istream :=
  mkIn (ibuf s) (eofbit s || eof) (failbit s || fail).

Definition at_end (b : text) : bool := match b with [] => true | _ :: _ => false end.

(** [istream::sentry]: refuses a stream that is not good, and skips
    white space unless told not to. *)
Definition sentry (noskipws : bool) (s : istream) : bool * istream :=
  if good s then
    if noskipws then (true, s)
    else match skip_while isspace (ibuf s) with
         | [] => (false, mkIn [] true true)
         | b => (true, mkIn b false false)
         end
  else (false, setstate false true s).

(** [is >> ws] *)
Definition ws (s : istream) : istream :=
  let '(ok, s1) := sentry true s in
  if ok then
    let b := skip_while isspace (ibuf s1) in mkIn b (at_end b) false
  else s1.

Definition not_newline (c : ascii) : bool := negb (is_char c nl).

(** [getline(is, str)]: [str] keeps its value when the sentry fails. *)
Definition getline (str : text) (s : istream) : text * istream :=
  let '(ok, s1) := sentry true s in
  if ok then
    let line := take_while not_newline (ibuf s1) in
    match skip_while not_newline (ibuf s1) with
    | [] => (line, mkIn [] true (at_end line))
    | _ :: rest => (line, mkIn rest false false)
    end
  else (str, s1).

Definition not_space (c : ascii) : bool := negb (isspace c).

(** [is >> str] for a [std::string] *)
Definition get_string (str : text) (s : istream) : text * istream :=
  let '(ok, s1) := sentry false s in
  if ok then
    let rest := skip_while not_space (ibuf s1) in
    (take_while not_space (ibuf s1), mkIn rest (at_end rest) false)
  else (str, s1).

(** [is >> x] for a [double]: [None] when [x] is left untouched. *)
Definition extract_double (s : istream) : option float * istream :=
  let '(ok, s1) := sentry false s in
  if ok then
    let '(xtrc, rest) := extract_float (ibuf s1) in
    let '(v, fail) := convert_to_v xtrc in
    (Some v, mkIn rest (at_end rest) fail)
  else (None, s1).

Definition get_double (x : float) (s : istream) : float * istream :=
  let '(v, s1) := extract_double s in (default x v, s1).

(** [is >> n] for an [int] *)
Definition get_int (n : Z) (s : istream) : Z * istream :=
  let '(ok, s1) := sentry false s in
  if ok then
    let '(l, fail, rest) := extract_long (ibuf s1) in
    let '(v, fail') :=
      if l <? INT_MIN then (INT_MIN, true)
      else if INT_MAX <? l then (INT_MAX, true)
      else (l, fail) in
    (v, mkIn rest (at_end rest) fail')
  else (n, s1).

(** ** Output streams *)

Record ostream := mkOut {
  obuf : text;
  fixed : bool;
  precision : Z;
  width : Z;
  adjust_left : bool
}.

Definition ostream_init : ostream := mkOut [] false 6 0 false.

Declare Scope stream_scope.
Notation "o |> f" := (f o) (at level 45, left associativity, only parsing) : stream_scope.
Local Open Scope stream_scope.

Definition setf_fixed (o : ostream) : ostream :=
  mkOut (obuf o) true (precision o) (width o) (adjust_left o).
Definition setprecision (p : Z) (o : ostream) : ostream :=
  mkOut (obuf o) (fixed o) p (width o) (adjust_left o).
Definition setw (n : Z) (o : ostream) : ostream :=
  mkOut (obuf o) (fixed o) (precision o) n (adjust_left o).
Definition left (o : ostream) : ostream :=
  mkOut (obuf o) (fixed o) (precision o) (width o) true.
Definition right (o : ostream) : ostream :=
  mkOut (obuf o) (fixed o) (precision o) (width o) false.

Definition padding (o : ostream) (s : text) : text :=
  repeat " "%char (Z.to_nat (width o) - length s).

(** Formatted insertion: pads to the field width, which is then reset. *)
Definition put (s : text) (o : ostream) : ostream :=
  mkOut (obuf o ++ (if adjust_left o then s ++ padding o s else padding o s ++ s))
        (fixed o) (precision o) 0 (adjust_left o).

Definition puts (s : string) (o : ostream) : ostream := put (T s) o.

Definition fmt_double (o : ostream) (x : float) : text :=
  if fixed o then fmt_fixed (precision o) x else fmt_general (precision o) x.

Definition put_double (x : float) (o : ostream) : ostream := put (fmt_double o x) o.

Definition put_int (n : Z) (o : ostream) : ostream := put (fmt_int n) o.

Definition endl (o : ostream) : ostream :=
  mkOut (obuf o ++ [nl]) (fixed o) (precision o) (width o) (adjust_left o).

(** ** The process: console, files, and how a run can end *)

Record World := mkWorld {
  cin : istream;
  cout : ostream;
  files : gmap string text;
  readonly : gset string
}.

(** A call returns, or the process exits with a status, or the
    behaviour is undefined (an access outside a vector, an
    uninitialised read, a signed overflow), or the fuel of a loop ran
    out. *)
Inductive result (A : Type) : Type :=
| Done (a : A) (w : World)
| Exited (status : Z) (w : World)
| Undefined
| OutOfFuel.
Arguments Done {A} a w.
Arguments Exited {A} status w.
Arguments Undefined {A}.
Arguments OutOfFuel {A}.

Definition M (A : Type) : Type := World -> result A.

Definition ret {A} (a : A) : M A := fun w => Done a w.

Definition bind {A B} (c : M A) (k : A -> M B) : M B :=
  fun w =>
    match c w with
    | Done a w' => k a w'
    | Exited st w' => Exited st w'
    | Undefined => Undefined
    | OutOfFuel => OutOfFuel
    end.

Notation "x <- c ;; k" := (bind c (fun x => k))
  (at level 100, c at next level, k at level 200, right associativity) : stream_scope.
Notation "c ;; k" := (bind c (fun _ => k))
  (at level 100, k at level 200, right associativity) : stream_scope.

Definition out (f : ostream -> ostream) : M unit :=
  fun w => Done tt (mkWorld (cin w) (f (cout w)) (files w) (readonly w)).

Definition inp {A} (f : istream -> A * istream) : M A :=
  fun w => let '(a, s) := f (cin w) in Done a (mkWorld s (cout w) (files w) (readonly w)).

Definition undefined {A} : M A := fun _ => Undefined.
Definition diverge {A} : M A := fun _ => OutOfFuel.

(** [exit(code)]: the status the parent sees is the low byte. *)
Definition exit {A} (code : Z) : M A := fun w => Exited (code mod 256) w.

(** Reading into an uninitialised [double]. *)
Definition inp_double_uninit : M float :=
  fun w =>
    let '(v, s) := extract_double (cin w) in
    match v with
    | Some x => Done x (mkWorld s (cout w) (files w) (readonly w))
    | None => Undefined
    end.

Definition can_write (name : string) : M bool :=
  fun w => Done (negb (bool_decide (name ∈ readonly w))) w.

Definition read_file (name : string) : M (option text) :=
  fun w => Done (files w !! name) w.

(** Closing an [ofstream] that was opened truncating. *)
Definition write_file (name : string) (t : text) : M unit :=
  fun w => Done tt (mkWorld (cin w) (cout w) (<[name := t]> (files w)) (readonly w)).

(** Closing an [ofstream] that was opened with [ios::app]. *)
Definition append_file (name : string) (t : text) : M unit :=
  fun w => Done tt (mkWorld (cin w) (cout w)
                      (<[name := default [] (files w !! name) ++ t]> (files w)) (readonly w)).

Definition text_eqb (a : text) (b : string) : bool := bool_decide (a = T b).

(** An unsigned 32-bit counter running up to [size()] never gets there
    when the vector holds 2^32 elements or more. *)
Definition counted {A} (l : list A) : M unit :=
  fun w => if 2 ^ 32 <=? Z.of_nat (length l) then OutOfFuel else Done tt w.

(** ** The member functions that do input and output *)

Definition MATERIAL_WIDTH : Z := 30.
Definition INDEX_WIDTH : Z := 10.
Definition MAXIMA_WIDTH : Z := 15.
Definition THICKNESS_WIDTH : Z := 20.

(** [Thin_film::print] *)
Definition print (f : Thin_film) (o : ostream) : ostream :=
  o |> setf_fixed
    |> setw MATERIAL_WIDTH |> left |> put (mat f)
    |> setw INDEX_WIDTH |> setprecision 2 |> right |> put_double (index f)
    |> setw MAXIMA_WIDTH |> setprecision 2 |> put_double (numberOfMaxima f)
    |> setw THICKNESS_WIDTH |> setprecision 1 |> put_double (getThickness f) |> endl.

(** [Thin_film::printLib] *)
Definition printLib (f : Thin_film) (o : ostream) : ostream :=
  o |> setf_fixed
    |> setw MATERIAL_WIDTH |> left |> put (mat f)
    |> setw INDEX_WIDTH |> setprecision 2 |> right |> put_double (index f) |> endl.

(** [Thin_film::read()]: the four fields from the console, stored as
    they are read. *)
Definition read (f : Thin_film) : M Thin_film :=
  out (puts "Enter the name of the film: ");;
  inp (fun s => (tt, ws s));;
  m <- inp (getline (mat f));;
  out (puts "Enter the refractive index of the film: ");;
  i <- inp (get_double (index f));;
  out (puts "Enter the spectral bandwidth over which the spectra was acquired in nm: ");;
  r <- inp (get_double (spectralRange f));;
  out (puts "Enter the number of maxima within the spectral range: ");;
  n <- inp (get_double (numberOfMaxima f));;
  ret (mkFilm m r i n).

(** [Thin_film::read(ifstream&)]: name line and index from a file. *)
Definition read_fin (f : Thin_film) (fin : istream) : Thin_film * istream :=
  let fin1 := ws fin in
  let '(m, fin2) := getline (mat f) fin1 in
  let '(i, fin3) := get_double (index f) fin2 in
  (mkFilm m (spectralRange f) i (numberOfMaxima f), fin3).

(** [Thin_film::readFilm] *)
Definition readFilm (f : Thin_film) (fin : istream) : Thin_film * istream :=
  let fin1 := ws fin in
  let '(m, fin2) := getline (mat f) fin1 in
  let '(i, fin3) := get_double (index f) fin2 in
  let '(r, fin4) := get_double (spectralRange f) fin3 in
  let '(n, fin5) := get_double (numberOfMaxima f) fin4 in
  (mkFilm m r i n, fin5).

(** [Thin_film::writeFile] *)
Definition writeFile (f : Thin_film) (fout : ostream) : ostream :=
  fout |> put (mat f) |> endl |> put_double (index f) |> endl.

Definition open_failed {A} : M A :=
  out (puts "Output file failed to open.
");; exit (-1).

(** The line [Thin_film::writeMeasResultFile] writes. *)
Definition meas_line (f : Thin_film) : text :=
  obuf (ostream_init
    |> setf_fixed
    |> setw MATERIAL_WIDTH |> setprecision 2 |> left |> put (mat f)
    |> setw INDEX_WIDTH |> setprecision 2 |> right |> put_double (index f)
    |> setw MAXIMA_WIDTH |> setprecision 1 |> put_double (getThickness f)
    |> setprecision 1 |> endl).

(** [Thin_film::writeMeasResultFile] *)
Definition writeMeasResultFile (f : Thin_film) (fileName : string) : M unit :=
  out (puts "Would you like to save this measurement result (y/n)? ");;
  saveMeasurement <- inp (get_string (T "n"));;
  if text_eqb saveMeasurement "y" then
    ok <- can_write fileName;;
    if ok then append_file fileName (meas_line f) else open_failed
  else ret tt.

(** ** The operations of the menu *)

Definition table_header (o : ostream) : ostream :=
  o |> setw MATERIAL_WIDTH |> left |> puts "Material"
    |> setw INDEX_WIDTH |> right |> puts "Index"
    |> setw MAXIMA_WIDTH |> right |> puts "# of maxima"
    |> setw THICKNESS_WIDTH |> puts "Thickness (nm)" |> endl.

Fixpoint listFilms_rows (num : Z) (l : list Thin_film) (o : ostream) : ostream :=
  match l with
  | [] => o
  | f :: r =>
      listFilms_rows (num + 1) r
        (o |> setw 2 |> right |> put_int (num + 1) |> puts " " |> printLib f)
  end.

(** [listFilms] *)
Definition listFilms (materialList : list Thin_film) : M unit :=
  out (fun o => o |> puts "
THIN FILM LIBRARY
" |> setw MATERIAL_WIDTH |> left |> puts "Material"
     |> setw (INDEX_WIDTH + 4) |> right |> puts "Index" |> endl);;
  counted materialList;;
  out (listFilms_rows 0 materialList).

(** [getFilmIndex]: the position typed, minus one. *)
Definition getFilmIndex (materialList : list Thin_film) : M Z :=
  listFilms materialList;;
  out (puts "Enter the number preceeding the name of the thin film material: ");;
  pos <- inp (get_int 0);;
  if pos =? INT_MIN then undefined else ret (pos - 1).

(** [materialList[pos]] *)
Definition at_index (materialList : list Thin_film) (pos : Z) : option Thin_film :=
  if pos <? 0 then None else materialList !! Z.to_nat pos.

(** The text [saveData] writes. *)
Definition library_text (materialList : list Thin_film) : text :=
  obuf (fold_left (fun o f => writeFile f o) materialList ostream_init).

(** [saveData] *)
Definition saveData (materialList : list Thin_film) (fileName : string) : M unit :=
  ok <- can_write fileName;;
  if ok then
    counted materialList;;
    write_file fileName (library_text materialList)
  else open_failed.

(** The loop of [loadData]; [None] when the fuel runs out. *)
Fixpoint loadData_loop (fuel : nat) (film : Thin_film) (fin : istream)
    (materialList : list Thin_film) : option (list Thin_film) :=
  if good fin then
    match fuel with
    | O => None
    | S fuel' =>
        let '(film', fin') := read_fin film fin in
        loadData_loop fuel' film' fin'
          (if good fin' then materialList ++ [film'] else materialList)
    end
  else Some materialList.

(** [loadData] *)
Definition loadData (materialList : list Thin_film) (fileName : string)
  : M (list Thin_film) :=
  content <- read_file fileName;;
  match content with
  | None =>
      out (fun o => o |> puts "File " |> puts fileName |> puts " failed to open.
");; exit 1
  | Some t =>
      match loadData_loop (S (length t)) Thin_film_default (mkIn t false false) materialList with
      | Some l => ret l
      | None => diverge
      end
  end.

(** [readFile] *)
Fixpoint readFile_loop (fuel : nat) (fin : istream) (materialList : list Thin_film)
  : option (list Thin_film) :=
  if good fin then
    match fuel with
    | O => None
    | S fuel' =>
        let '(temp, fin') := readFilm Thin_film_default fin in
        readFile_loop fuel' fin' (if good fin' then materialList ++ [temp] else materialList)
    end
  else Some materialList.

Definition readFile (materialList : list Thin_film) (films : string) : M (list Thin_film) :=
  content <- read_file films;;
  match content with
  | None => out (fun o => o |> puts "Input file failed to open
");; exit (-1)
  | Some t =>
      match readFile_loop (S (length t)) (mkIn t false false) materialList with
      | Some l => ret l
      | None => diverge
      end
  end.

(** [addMaterial] *)
Definition addMaterial : M unit :=
  out (puts "Enter the name of the film: ");;
  inp (fun s => (tt, ws s));;
  m <- inp (getline []);;
  out (puts "Enter the refractive index of the film: ");;
  i <- inp (get_double 0%float);;
  let unknown := setIndex i (setMat m Thin_film_default) in
  out (fun o => o |> endl
     |> setw MATERIAL_WIDTH |> left |> puts "Material"
     |> setw INDEX_WIDTH |> right |> puts "Index" |> endl
     |> setw MATERIAL_WIDTH |> left |> put m
     |> setw INDEX_WIDTH |> right |> put_double i |> endl
     |> endl |> puts "Save material and index of this film (y/n)? ");;
  saveMatIndex <- inp (get_string (T "n"));;
  if text_eqb saveMatIndex "y" then
    ok <- can_write "films.txt";;
    if ok then
      append_file "films.txt" (obuf (ostream_init |> put m |> endl |> put_double i |> endl))
    else open_failed
  else ret tt.

(** The loop of [deleteFilm]: [i] is an [unsigned], the bound
    [size() - 1] a [size_t]. *)
Inductive loop_result : Type :=
| LoopDone (v : list Thin_film)
| LoopUndefined
| LoopOutOfFuel.

Fixpoint deleteFilm_loop (fuel : nat) (i : Z) (v : list Thin_film) : loop_result :=
  if i <? (Z.of_nat (length v) - 1) mod 2 ^ 64 then
    match fuel with
    | O => LoopOutOfFuel
    | S fuel' =>
        match v !! Z.to_nat i, v !! Z.to_nat ((i + 1) mod 2 ^ 32) with
        | Some _, Some x => deleteFilm_loop fuel' ((i + 1) mod 2 ^ 32) (<[Z.to_nat i := x]> v)
        | _, _ => LoopUndefined
        end
    end
  else LoopDone v.

(** [pop_back] *)
Definition pop_back (v : list Thin_film) : option (list Thin_film) :=
  match v with
  | [] => None
  | _ :: _ => Some (removelast v)
  end.

(** [deleteFilm] *)
Definition deleteFilm (materialList : list Thin_film) : M (list Thin_film) :=
  pos <- getFilmIndex materialList;;
  match deleteFilm_loop (S (length materialList)) (pos mod 2 ^ 32) materialList with
  | LoopDone v =>
      match pop_back v with
      | Some v' => saveData v' "films.txt";; ret v'
      | None => undefined
      end
  | LoopUndefined => undefined
  | LoopOutOfFuel => diverge
  end.

(** [calculateThickness] *)
Fixpoint calculateThickness_loop (fuel : nat) (repeat : text)
    (materialList : list Thin_film) : M (list Thin_film) :=
  if text_eqb repeat "y" then
    match fuel with
    | O => diverge
    | S fuel' =>
        out (puts "Read material data from library? (y/n): ");;
        libFilm <- inp (get_string (T "y"));;
        l <- (if text_eqb libFilm "y" then
                pos <- getFilmIndex materialList;;
                match at_index materialList pos with
                | None => undefined
                | Some film =>
                    let materialList' := materialList ++ [film] in
                    out (puts "Enter the spectral bandwidth over which the spectra was acquired in nm: ");;
                    newSpectralRange <- inp_double_uninit;;
                    let film1 := setspectralRange newSpectralRange film in
                    out (puts "Enter the number of maxima within the spectral range: ");;
                    newnumberOfMaxima <- inp_double_uninit;;
                    let film2 := setnumberOfMaxima newnumberOfMaxima film1 in
                    out (fun o => o |> endl |> table_header |> print film2);;
                    writeMeasResultFile film2 "data.txt";;
                    ret materialList'
                end
              else
                unknown <- read Thin_film_default;;
                let materialList' := materialList ++ [unknown] in
                out (fun o => o |> endl |> table_header |> print unknown
                       |> puts "Save material and index of this film (y/n)? ");;
                saveMatIndex <- inp (get_string (T "y"));;
                (if text_eqb saveMatIndex "y" then saveData materialList' "films.txt" else ret tt);;
                writeMeasResultFile unknown "data.txt";;
                ret materialList');;
        out (puts "Enter another thin film? (y/n): ");;
        repeat' <- inp (get_string repeat);;
        calculateThickness_loop fuel' repeat' l
    end
  else ret materialList.

Definition calculateThickness (fuel : nat) (materialList : list Thin_film)
  : M (list Thin_film) :=
  calculateThickness_loop fuel (T "y") materialList.

Definition CAL_THICKNESS : Z := 1.
Definition MATERIAL_LIST : Z := 2.
Definition ADD_MATERIAL : Z := 3.
Definition DEL_MATERIAL : Z := 4.
Definition EXIT : Z := 0.

Definition menu (o : ostream) : ostream :=
  o |> puts "
Please choose one of the following operations: 
"   |> put_int EXIT |> puts ". Exit the program
"   |> put_int CAL_THICKNESS |> puts ". Calculate thickness of arbitrary film
"   |> put_int MATERIAL_LIST |> puts ". List the materials in the thin film library
"   |> put_int ADD_MATERIAL |> puts ". Add a new thin film to the library
"   |> put_int DEL_MATERIAL |> puts ". Delete a thin film from the library
"   |> puts "Choice (0-4): ".

(** The loop of [main]; every loop below it gets the same fuel. *)
Fixpoint main_loop (fuel : nat) (choice : Z) (materialList : list Thin_film)
  : M (list Thin_film) :=
  if choice =? 0 then ret materialList
  else
    match fuel with
    | O => diverge
    | S fuel' =>
        out menu;;
        choice' <- inp (get_int choice);;
        l <- (if choice' =? CAL_THICKNESS then calculateThickness fuel' materialList
              else if choice' =? MATERIAL_LIST then (listFilms materialList;; ret materialList)
              else if choice' =? ADD_MATERIAL then (addMaterial;; ret materialList)
              else if choice' =? DEL_MATERIAL then deleteFilm materialList
              else ret materialList);;
        main_loop fuel' choice' l
    end.

(** [main] *)
Definition main (fuel : nat) : M Z :=
  materialList <- loadData [] "films.txt";;
  out (fun o => o |> endl |> puts "Thin Film Calculator
");;
  main_loop fuel 1 materialList;;
  out (puts "
Goodbye!
");;
  ret 0.

(** A process started with the given console input and files. *)
Definition start (input : string) (fs : gmap string text) (ro : gset string) : World :=
  mkWorld (mkIn (T input) false false) ostream_init fs ro.

(** ** Library files as lists of records

    A library file is a sequence of records, each a name line and an
    index line.  A name is clean when it is not empty, does not start
    with white space and holds no newline; an index line is readable
    when [>>] reads all of it as a number. *)

Definition record_text (r : text * text) : text :=
  fst r ++ nl :: snd r ++ [nl].

Definition file_of (rs : list (text * text)) : text :=
  concat (map record_text rs).

Definition clean_name (n : text) : bool :=
  match n with
  | [] => false
  | c :: _ => negb (isspace c) && forallb not_newline n
  end.

Definition at_newline (s : istream) : bool :=
  bool_decide (ibuf s = [nl]) && good s.

(** The value [>>] reads from an index line (0 when it reads none). *)
Definition index_value (i : text) : float :=
  default 0%float (fst (extract_double (mkIn (i ++ [nl]) false false))).

(** An index line that [>>] reads whole and without error. *)
Definition readable_index (i : text) : bool :=
  match extract_double (mkIn (i ++ [nl]) false false) with
  | (Some v, s) => at_newline s
  | (None, _) => false
  end.

Definition readable_record (r : text * text) : bool :=
  clean_name (fst r) && readable_index (snd r).

(** The record [loadData] builds from a name line and an index line. *)
Definition loaded (r : text * text) : Thin_film :=
  mkFilm (fst r) 0%float (index_value (snd r)) 0%float.

(** What [addMaterial] reads from the console: name, index, answer. *)
Definition addMaterial_input (s : istream) : text * float * text * istream :=
  let s1 := ws s in
  let '(m, s2) := getline [] s1 in
  let '(i, s3) := get_double 0%float s2 in
  let '(a, s4) := get_string (T "n") s3 in
  (m, i, a, s4).

Definition SFone64 : spec_float := S754_finite false 4503599627370496 (-52).

(** The two records of the scenario of the specification. *)
Definition SiO2 : Thin_film := mkFilm (T "SiO2") 0%float 1.46%float 0%float.
Definition Si3N4 : Thin_film := mkFilm (T "Si3N4") 0%float 2.05%float 0%float.

Definition library_file : gmap string text :=
  {[ "films.txt"%string := T "SiO2
1.46
Si3N4
2.05
" ]}.

(** A tail of the file from which [read] comes back with a stream that
    is not good: nothing is appended for it and the loop ends. *)
Definition dropped_tail (tail : text) : Prop :=
  forall (film : Thin_film) (pre : text),
    forallb isspace pre = true ->
    good (snd (read_fin film (mkIn (pre ++ tail) false false))) = false.

(** The record read into [film] from a name line and an index line. *)
Definition loaded_with (film : Thin_film) (r : text * text) : Thin_film :=
  mkFilm (fst r) (spectralRange film) (index_value (snd r)) (numberOfMaxima film).

(** [save(load(path))] on the library file. *)
Definition reload_and_save : M unit :=
  l <- loadData [] "films.txt";;
  saveData l "films.txt".

(** A first character with which no number starts: [>>] extracts
    nothing and raises [failbit]. *)
Definition bad_start (c : ascii) : bool :=
  negb (isspace c) && negb (is_digit c) &&
  negb (is_char c "+") && negb (is_char c "-") && negb (is_char c ".").

(** An end of the file at which loading stops with nothing more
    appended: nothing, a name line alone (with or without its newline),
    or a name line followed by text that does not start a number,
    whatever comes after it. *)
Inductive load_stop : text -> Prop :=
| stop_end : load_stop []
| stop_name (n : text) : clean_name n = true -> load_stop n
| stop_name_line (n : text) : clean_name n = true -> load_stop (n ++ [nl])
| stop_bad_index (n : text) (c : ascii) (rest : text) :
    clean_name n = true -> bad_start c = true -> load_stop (n ++ nl :: c :: rest).

(** The world after more console output, input consumed up to [s]. *)
Definition after (w : World) (s : istream) (o : ostream) : World :=
  mkWorld s o (files w) (readonly w).

(** The two lines [writeFile] writes on a fresh [ofstream]. *)
Definition film_text (f : Thin_film) : text :=
  mat f ++ nl :: fmt_general 6 (index f) ++ [nl].

(** What [listFilms] and [getFilmIndex] write to the console. *)
Definition listFilms_output (l : list Thin_film) (o : ostream) : ostream :=
  o |> puts "
THIN FILM LIBRARY
" |> setw MATERIAL_WIDTH |> left |> puts "Material"
    |> setw (INDEX_WIDTH + 4) |> right |> puts "Index" |> endl
    |> listFilms_rows 0 l.

Definition getFilmIndex_output (l : list Thin_film) (o : ostream) : ostream :=
  o |> listFilms_output l
    |> puts "Enter the number preceeding the name of the thin film material: ".

(** What [addMaterial] writes to the console before it saves. *)
Definition addMaterial_output (m : text) (i : float) (o : ostream) : ostream :=
  o |> puts "Enter the name of the film: "
    |> puts "Enter the refractive index of the film: "
    |> endl
    |> setw MATERIAL_WIDTH |> left |> puts "Material"
    |> setw INDEX_WIDTH |> right |> puts "Index" |> endl
    |> setw MATERIAL_WIDTH |> left |> put m
    |> setw INDEX_WIDTH |> right |> put_double i |> endl
    |> endl |> puts "Save material and index of this film (y/n)? ".

(** The name line and index line [writeFile] prints for a record. *)
Definition printed (f : Thin_film) : text * text :=
  (mat f, fmt_general 6 (index f)).

(** A record of the file as [saveData] writes it back after loading:
    the name line, and the six-digit print of the number the index
    line reads as. *)
Definition reprinted (r : text * text) : text * text :=
  (fst r, fmt_general 6 (index_value (snd r))).

(** No extraction can succeed any more: the stream is not good, or
    nothing is left to read. *)
Definition exhausted (s : istream) : Prop :=
  good s = false \/ ibuf s = [].

(** What the library branch of [calculateThickness] writes to the
    console for one measurement. *)
Definition measurement_output (l : list Thin_film) (film : Thin_film) (o : ostream)
  : ostream :=
  o |> puts "Read material data from library? (y/n): "
    |> getFilmIndex_output l
    |> puts "Enter the spectral bandwidth over which the spectra was acquired in nm: "
    |> puts "Enter the number of maxima within the spectral range: "
    |> endl |> table_header |> print film
    |> puts "Would you like to save this measurement result (y/n)? "
    |> puts "Enter another thin film? (y/n): ".

(** What [Thin_film::read()] takes from the console, and what it
    writes. *)
Definition read_input (f : Thin_film) (s : istream) : Thin_film * istream :=
  let s1 := ws s in
  let '(m, s2) := getline (mat f) s1 in
  let '(i, s3) := get_double (index f) s2 in
  let '(r, s4) := get_double (spectralRange f) s3 in
  let '(n, s5) := get_double (numberOfMaxima f) s4 in
  (mkFilm m r i n, s5).

Definition read_output (o : ostream) : ostream :=
  o |> puts "Enter the name of the film: "
    |> puts "Enter the refractive index of the film: "
    |> puts "Enter the spectral bandwidth over which the spectra was acquired in nm: "
    |> puts "Enter the number of maxima within the spectral range: ".

(** What the other branch of [calculateThickness] writes to the
    console for a film typed in. *)
Definition typed_output (unknown : Thin_film) (o : ostream) : ostream :=
  o |> puts "Read material data from library? (y/n): "
    |> read_output
    |> endl |> table_header |> print unknown
    |> puts "Save material and index of this film (y/n)? "
    |> puts "Would you like to save this measurement result (y/n)? "
    |> puts "Enter another thin film? (y/n): ".

(** A row of the table LIST prints: the position in 2 columns, a
    space, the name in 30 columns, the index with 2 decimals in 10. *)
Definition list_row (k : Z) (f : Thin_film) : text :=
  repeat " "%char (2 - length (fmt_int k)) ++ fmt_int k ++ " "%char ::
  mat f ++ repeat " "%char (30 - length (mat f)) ++
  repeat " "%char (10 - length (fmt_fixed 2 (index f))) ++ fmt_fixed 2 (index f) ++ [nl].

Fixpoint list_rows (num : Z) (l : list Thin_film) : text :=
  match l with
  | [] => []
  | f :: r => list_row (num + 1) f ++ list_rows (num + 1) r
  end.

(** * Properties *)

(** ** Binary64 rounding

    Facts about the specification of Rocq's floats that the thickness
    formula needs: how [shr_fexp] shifts a mantissa, that rounding a
    non-zero value never gives zero, and that the square of a number
    below one stays below one. *)

Lemma digits2_size (p : positive) : digits2_pos p = Pos.size p.
Proof. induction p; simpl; congruence. Qed.

Lemma digits2_upper (p : positive) : Z.pos p < 2 ^ Z.pos (digits2_pos p).
Proof.
  rewrite digits2_size. pose proof (Pos.size_gt p) as H.
  rewrite <- Pos2Z.inj_pow. lia.
Qed.

Lemma digits2_lower (p : positive) : 2 ^ (Z.pos (digits2_pos p) - 1) <= Z.pos p.
Proof.
  rewrite digits2_size. pose proof (Pos.size_le p) as H.
  assert (2 ^ Z.pos (Pos.size p) <= 2 * Z.pos p) as H'.
  { rewrite <- Pos2Z.inj_pow. lia. }
  replace (Z.pos (Pos.size p)) with (1 + (Z.pos (Pos.size p) - 1)) in H' by lia.
  rewrite Z.pow_add_r in H' by lia. lia.
Qed.

Lemma digits2_le (p : positive) (k : Z) :
  Z.pos p < 2 ^ k -> Z.pos (digits2_pos p) <= k.
Proof.
  intros H. destruct (Z_lt_le_dec k (Z.pos (digits2_pos p))) as [Hlt|]; [|lia].
  exfalso. pose proof (digits2_lower p) as Hl.
  destruct (Z_lt_le_dec k 0) as [Hk|Hk].
  - rewrite Z.pow_neg_r in H by lia. lia.
  - assert (2 ^ k <= 2 ^ (Z.pos (digits2_pos p) - 1)) by (apply Z.pow_le_mono_r; lia).
    lia.
Qed.

Lemma shr_1_m (r : shr_record) : 0 <= shr_m r -> shr_m (shr_1 r) = shr_m r / 2.
Proof.
  destruct r as [m rb sb]. simpl. intros H.
  rewrite <- Z.div2_div.
  destruct m as [|[p|p|]|p]; try reflexivity; lia.
Qed.

Lemma iter_shr_1_m (p : positive) : forall r : shr_record,
  0 <= shr_m r -> shr_m (SpecFloat.iter_pos shr_1 p r) = shr_m r / 2 ^ Z.pos p.
Proof.
  induction p as [p IH|p IH|]; intros r Hr; simpl SpecFloat.iter_pos.
  - assert (0 <= shr_m (shr_1 r)) as H1 by (rewrite shr_1_m by lia; apply Z.div_pos; lia).
    assert (0 <= shr_m (SpecFloat.iter_pos shr_1 p (shr_1 r))) as H2
      by (rewrite IH by lia; apply Z.div_pos; [lia | apply Z.pow_pos_nonneg; lia]).
    rewrite IH, IH, shr_1_m by lia.
    rewrite !Z.div_div by (try apply Z.pow_pos_nonneg; lia).
    f_equal. rewrite Pos2Z.inj_xI, Z.add_1_r, Z.pow_succ_r by lia.
    rewrite (Z.pow_twice_r 2 (Z.pos p)). lia.
  - assert (0 <= shr_m (SpecFloat.iter_pos shr_1 p r)) as H2
      by (rewrite IH by lia; apply Z.div_pos; [lia | apply Z.pow_pos_nonneg; lia]).
    rewrite IH, IH by lia.
    rewrite !Z.div_div by (try apply Z.pow_pos_nonneg; lia).
    f_equal. rewrite (Pos2Z.inj_xO p), (Z.pow_twice_r 2 (Z.pos p)). lia.
  - rewrite shr_1_m by lia. reflexivity.
Qed.

Lemma shr_record_of_loc_m (m : Z) (l : location) : shr_m (shr_record_of_loc m l) = m.
Proof. destruct l as [|[]]; reflexivity. Qed.

(** What [shr_fexp] computes: the mantissa divided by a power of two,
    at the exponent [max e (fexp (digits m + e))]. *)
Lemma shr_fexp_spec (m e : Z) (l : location) :
  0 <= m ->
  let e' := Z.max e (fexp prec emax (Zdigits2 m + e)) in
  shr_m (fst (shr_fexp prec emax m e l)) = m / 2 ^ (e' - e) /\
  snd (shr_fexp prec emax m e l) = e'.
Proof.
  intros Hm e'. unfold shr_fexp, shr. subst e'.
  destruct (fexp prec emax (Zdigits2 m + e) - e) as [|p|p] eqn:E; simpl fst; simpl snd.
  - rewrite shr_record_of_loc_m. replace (Z.max _ _ - e) with 0 by lia.
    rewrite Z.div_1_r. split; [reflexivity | lia].
  - rewrite iter_shr_1_m by (rewrite shr_record_of_loc_m; lia).
    rewrite shr_record_of_loc_m.
    replace (Z.max _ _ - e) with (Z.pos p) by lia. split; [reflexivity | lia].
  - rewrite shr_record_of_loc_m. replace (Z.max _ _ - e) with 0 by lia.
    rewrite Z.div_1_r. split; [reflexivity | lia].
Qed.

Lemma round_nearest_even_bounds (m : Z) (l : location) :
  m <= round_nearest_even m l <= m + 1.
Proof. destruct l as [|[]]; simpl; try destruct (Z.even m); lia. Qed.


Lemma fexp_unfold (x : Z) : fexp prec emax x = Z.max (x - 53) (-1074).
Proof. reflexivity. Qed.

Lemma Zdigits2_le (m k : Z) : 0 <= m -> 0 <= k -> m < 2 ^ k -> Zdigits2 m <= k.
Proof.
  intros Hm Hk H. destruct m as [|p|p]; simpl; [lia| |lia].
  apply digits2_le; assumption.
Qed.

Lemma shr_fexp_pos (m e : Z) (l : location) :
  0 < m -> -1074 <= e ->
  0 < shr_m (fst (shr_fexp prec emax m e l)) /\
  -1074 <= snd (shr_fexp prec emax m e l).
Proof.
  intros Hm He.
  destruct (shr_fexp_spec m e l ltac:(lia)) as [Hq He'].
  rewrite Hq, He'. clear Hq He'. rewrite fexp_unfold.
  split; [|lia].
  destruct m as [|p|p]; try lia. simpl Zdigits2.
  pose proof (digits2_lower p) as Hl.
  set (d := Z.pos (digits2_pos p)) in *.
  destruct (Z_le_gt_dec (d - 53) 0) as [Hd|Hd].
  - replace (Z.max e _ - e) with 0 by lia. rewrite Z.div_1_r. lia.
  - replace (Z.max e _ - e) with (d - 53) by lia.
    apply Z.div_str_pos. split; [apply Z.pow_pos_nonneg; lia|].
    etransitivity; [|exact Hl]. apply Z.pow_le_mono_r; lia.
Qed.

(** Rounding a non-zero mantissa at an exponent of the format never
    gives a zero, and keeps the sign. *)
Lemma binary_round_aux_nonzero (sx : bool) (mz : positive) (ez : Z) (l : location) :
  -1074 <= ez ->
  match binary_round_aux prec emax sx (Z.pos mz) ez l with
  | S754_zero _ => False
  | S754_infinity s | S754_finite s _ _ => s = sx
  | S754_nan => True
  end.
Proof.
  intros He. unfold binary_round_aux.
  destruct (shr_fexp_pos (Z.pos mz) ez l ltac:(lia) He) as [H1 H1'].
  destruct (shr_fexp prec emax (Z.pos mz) ez l) as [mrs1 e1]. simpl in H1, H1'.
  pose proof (round_nearest_even_bounds (shr_m mrs1) (loc_of_shr_record mrs1)) as Hr.
  destruct (shr_fexp_pos (round_nearest_even (shr_m mrs1) (loc_of_shr_record mrs1))
              e1 loc_Exact ltac:(lia) H1') as [H2 H2'].
  destruct (shr_fexp prec emax _ e1 loc_Exact) as [mrs2 e2]. simpl in H2, H2'.
  destruct (shr_m mrs2); try lia.
  destruct (e2 <=? emax - prec); reflexivity.
Qed.

(** The square of a float below one in magnitude rounds to a float
    below one (or underflows to zero). *)
Lemma square_below_one (m : positive) (e : Z) :
  Z.pos m < 2 ^ 53 -> e <= -53 ->
  match binary_round_aux prec emax false (Z.pos (m * m)) (e + e) loc_Exact with
  | S754_zero s => s = false
  | S754_infinity _ => False
  | S754_nan => True
  | S754_finite s _ e' => s = false /\ e' <= -53
  end.
Proof.
  intros Hm He. unfold binary_round_aux.
  pose proof (shr_fexp_spec (Z.pos (m * m)) (e + e) loc_Exact ltac:(lia)) as [Hq He1].
  destruct (shr_fexp prec emax (Z.pos (m * m)) (e + e) loc_Exact) as [mrs1 e1].
  cbn [fst snd] in Hq, He1. rewrite fexp_unfold in He1.
  assert (Z.pos (m * m) <= (2 ^ 53 - 1) * (2 ^ 53 - 1)) as Hsq.
  { rewrite Pos2Z.inj_mul. apply Z.mul_le_mono_nonneg; lia. }
  assert (Z.pos (digits2_pos (m * m)) <= 106) as Hd.
  { apply digits2_le; lia. }
  cbn [Zdigits2] in He1, Hq. rewrite fexp_unfold, <- He1 in Hq.
  assert (e + e <= e1 <= -53) as He1b by lia.
  set (q := shr_m mrs1) in *.
  set (m1 := round_nearest_even q (loc_of_shr_record mrs1)).
  pose proof (round_nearest_even_bounds q (loc_of_shr_record mrs1)) as Hr.
  fold m1 in Hr.
  assert (0 <= q) as Hq0.
  { rewrite Hq. apply Z.div_pos; [lia | apply Z.pow_pos_nonneg; lia]. }
  assert (q + 1 < 2 ^ (- e1)) as Hq1.
  { assert (2 ^ (- (e + e)) = 2 ^ (e1 - (e + e)) * 2 ^ (- e1)) as Hsplit.
    { rewrite <- Z.pow_add_r by lia. f_equal. lia. }
    assert (2 ^ 106 <= 2 ^ (- (e + e))) as HP by (apply Z.pow_le_mono_r; lia).
    assert (2 ^ 53 <= 2 ^ (- e1)) as HB by (apply Z.pow_le_mono_r; lia).
    assert (0 < 2 ^ (e1 - (e + e))) as HA by (apply Z.pow_pos_nonneg; lia).
    cut (q < 2 ^ (- e1) - 1); [lia|].
    rewrite Hq. apply Z.div_lt_upper_bound; [exact HA|].
    set (A := 2 ^ (e1 - (e + e))) in *. set (B := 2 ^ (- e1)) in *.
    set (P := 2 ^ (- (e + e))) in *.
    assert (A * 2 ^ 53 <= P) by (rewrite Hsplit; apply Z.mul_le_mono_nonneg_l; lia).
    rewrite Z.mul_sub_distr_l, <- Hsplit. change (2 ^ 53) with 9007199254740992 in *.
    change (2 ^ 106) with 81129638414606681695789005144064 in *. lia. }
  assert (Zdigits2 m1 <= - e1) as Hd1 by (apply Zdigits2_le; lia).
  pose proof (shr_fexp_spec m1 e1 loc_Exact ltac:(lia)) as [_ He2].
  destruct (shr_fexp prec emax m1 e1 loc_Exact) as [mrs2 e2].
  simpl in He2. rewrite fexp_unfold in He2.
  destruct (shr_m mrs2); auto.
  replace (e2 <=? emax - prec) with true; [split; [reflexivity | lia]|].
  symmetry. apply Z.leb_le. change (emax - prec) with 971. lia.
Qed.

Lemma iter_xO (d : positive) (m : positive) :
  Z.pos (Pos.iter xO m d) = Z.pos m * 2 ^ Z.pos d.
Proof.
  revert m. induction d as [|d IH] using Pos.peano_ind; intros m.
  - cbn [Pos.iter]. rewrite (Pos2Z.inj_xO m). change (2 ^ 1) with 2. lia.
  - rewrite Pos.iter_succ, (Pos2Z.inj_xO (Pos.iter xO m d)), IH, Pos2Z.inj_succ, Z.pow_succ_r by lia. lia.
Qed.

(** Subtracting one from a non-negative float below one gives a
    negative non-zero float, whose square root is NaN. *)
Lemma sqrt_sub_one_nan (x : spec_float) :
  valid_binary x = true ->
  match x with
  | S754_zero _ => True
  | S754_finite s _ e => s = false /\ e <= -53
  | S754_nan => True
  | S754_infinity _ => False
  end ->
  SF64sqrt (SF64sub x SFone64) = S754_nan.
Proof.
  intros Hv Hx. destruct x as [s|s| |s m e]; try easy.
  destruct Hx as [-> He]. unfold SF64sub, SFsub, SFone64.
  cbv zeta. unfold valid_binary, SpecFloat.valid_binary, bounded in Hv.
  apply andb_prop in Hv as [Hc _].
  unfold canonical_mantissa in Hc. apply Z.eqb_eq in Hc. rewrite fexp_unfold in Hc.
  pose proof (digits2_upper m) as Hu.
  assert (Z.pos (digits2_pos m) <= 53) as Hd by lia.
  assert (Z.pos m < 2 ^ 53) as Hm.
  { eapply Z.lt_le_trans; [exact Hu|]. apply Z.pow_le_mono_r; lia. }
  replace (Z.min e (-52)) with e by lia.
  unfold shl_align at 1. rewrite Z.sub_diag. cbn [fst].
  unfold shl_align. destruct (e - -52) as [|p|p] eqn:E; try lia.
  cbn [fst cond_Zopp]. rewrite iter_xO.
  assert (2 ^ 53 <= 4503599627370496 * 2 ^ Z.pos p) as Hbig.
  { change 4503599627370496 with (2 ^ 52). rewrite <- Z.pow_add_r by lia.
    apply Z.pow_le_mono_r; lia. }
  destruct (Z.pos m - 4503599627370496 * 2 ^ Z.pos p) as [|r|r] eqn:Ediff; try lia.
  unfold binary_normalize, binary_round.
  destruct (shl_align r e _) as [mz ez] eqn:Esh.
  assert (-1074 <= ez) as Hez.
  { unfold shl_align in Esh. rewrite fexp_unfold in Esh.
    destruct (Z.max _ _ - e) eqn:E'; inversion Esh; subst; lia. }
  pose proof (binary_round_aux_nonzero true mz ez loc_Exact Hez) as Hnz.
  destruct (binary_round_aux prec emax true (Z.pos mz) ez loc_Exact) as [s|s| |s m' e'];
    [contradiction | subst s; reflexivity | reflexivity | subst s; reflexivity].
Qed.


Lemma is_nan_of_SF (x : float) : Prim2SF x = S754_nan -> is_nan x = true.
Proof.
  intros H. unfold is_nan. rewrite FloatAxioms.eqb_spec, H. reflexivity.
Qed.

Lemma mul_nan_r (x y : float) : Prim2SF y = S754_nan -> Prim2SF (x * y) = S754_nan.
Proof.
  intros H. rewrite mul_spec, H. destruct (Prim2SF x) as [s|s| |s m e]; reflexivity.
Qed.

(** A float strictly between -1 and 1 is a zero, or has an exponent of
    at most -53. *)
Lemma below_one_exponent (n : float) :
  (-1 <? n)%float = true -> (n <? 1)%float = true ->
  match Prim2SF n with
  | S754_zero _ => True
  | S754_finite _ m e => Z.pos m < 2 ^ 53 /\ e <= -53
  | _ => False
  end.
Proof.
  intros Hlo Hhi. rewrite ltb_spec in Hlo, Hhi.
  pose proof (Prim2SF_valid n) as Hv.
  change (Prim2SF 1) with SFone64 in Hhi.
  change (Prim2SF (-1)) with (S754_finite true 4503599627370496 (-52)) in Hlo.
  destruct (Prim2SF n) as [s|s| |s m e]; [exact I | destruct s; discriminate | discriminate |].
  unfold valid_binary, SpecFloat.valid_binary, bounded in Hv.
  apply andb_prop in Hv as [Hc _].
  unfold canonical_mantissa in Hc. apply Z.eqb_eq in Hc. rewrite fexp_unfold in Hc.
  pose proof (digits2_upper m) as Hu. pose proof (digits2_lower m) as Hl.
  assert (Z.pos (digits2_pos m) <= 53) as Hd by lia.
  assert (Z.pos m < 2 ^ 53) as Hm.
  { eapply Z.lt_le_trans; [exact Hu|]. apply Z.pow_le_mono_r; lia. }
  split; [exact Hm|].
  unfold SFltb, SFcompare, SFone64 in Hlo, Hhi.
  destruct (Z.compare_spec e (-52)) as [He|He|He]; [|lia|].
  - exfalso. subst e.
    assert (Z.pos (digits2_pos m) = 53) as Hd53 by lia.
    rewrite Hd53 in Hl. change (2 ^ (53 - 1)) with 4503599627370496 in Hl.
    destruct s.
    + try rewrite Z.compare_refl in Hlo.
      destruct (Pos.compare_cont Eq 4503599627370496 m) eqn:Ec; try discriminate.
      apply (proj1 (Pos.compare_gt_iff _ _)) in Ec. apply Pos2Z.pos_lt_pos in Ec.
      clear - Ec Hl. lia.
    + try rewrite Z.compare_refl in Hhi.
      destruct (Pos.compare_cont Eq m 4503599627370496) eqn:Ec; try discriminate.
      apply (proj1 (Pos.compare_lt_iff _ _)) in Ec. apply Pos2Z.pos_lt_pos in Ec.
      clear - Ec Hl. lia.
  - exfalso. destruct s.
    + destruct (Z.compare_spec (-52) e); try lia; discriminate.
    + destruct (Z.compare_spec e (-52)); try lia; discriminate.
Qed.

(** The square root in the formula is NaN for an index strictly
    between -1 and 1. *)
Lemma sqrt_index_nan (n : float) :
  (-1 <? n)%float = true -> (n <? 1)%float = true ->
  Prim2SF (PrimFloat.sqrt (n * n - 1)) = S754_nan.
Proof.
  intros Hlo Hhi. pose proof (below_one_exponent n Hlo Hhi) as Hn.
  rewrite sqrt_spec, sub_spec. change (Prim2SF 1) with SFone64.
  apply sqrt_sub_one_nan; [apply Prim2SF_valid|].
  rewrite mul_spec. unfold SF64mul, SFmul.
  destruct (Prim2SF n) as [s|s| |s m e]; try contradiction.
  - exact I.
  - destruct Hn as [Hm He]. rewrite xorb_nilpotent.
    pose proof (square_below_one m e Hm He) as Hsq.
    destruct (binary_round_aux prec emax false (Z.pos (m * m)) (e + e) loc_Exact);
      tauto.
Qed.

(** ** The record: setters and thickness *)

Lemma ltb_zero_of_leb (v : float) :
  (0 <=? v)%float = true -> (v <? 0)%float = false.
Proof.
  rewrite leb_spec, ltb_spec.
  change (Prim2SF 0%float) with (S754_zero false).
  destruct (Prim2SF v) as [s|s| |s m e]; try destruct s; cbn; congruence.
Qed.

(** C4: each of [setIndex], [setspectralRange] and [setnumberOfMaxima]
    stores 0 when given a negative value, and the value itself when it
    is at least 0. *)
Theorem setters_clamp (v : float) (f : Thin_film) :
  ((v <? 0)%float = true ->
     index (setIndex v f) = 0%float /\
     spectralRange (setspectralRange v f) = 0%float /\
     numberOfMaxima (setnumberOfMaxima v f) = 0%float) /\
  ((0 <=? v)%float = true ->
     index (setIndex v f) = v /\
     spectralRange (setspectralRange v f) = v /\
     numberOfMaxima (setnumberOfMaxima v f) = v).
Proof.
  unfold setIndex, setspectralRange, setnumberOfMaxima. split.
  - intros ->. repeat split.
  - intros H. rewrite (ltb_zero_of_leb v H). repeat split.
Qed.

Lemma setters_clamp_witness :
  index (setIndex (-3)%float Thin_film_default) = 0%float /\
  index (setIndex 2.5%float Thin_film_default) = 2.5%float.
Proof.
  split.
  - apply (proj1 (setters_clamp (-3)%float Thin_film_default)). reflexivity.
  - apply (proj2 (setters_clamp 2.5%float Thin_film_default)). reflexivity.
Defined.

Lemma ltb_neg_one_of_leb (v : float) :
  (0 <=? v)%float = true -> (-1 <? v)%float = true.
Proof.
  rewrite leb_spec, ltb_spec.
  change (Prim2SF 0%float) with (S754_zero false).
  change (Prim2SF (-1)%float) with (S754_finite true 4503599627370496 (-52)).
  destruct (Prim2SF v) as [s|s| |s m e]; try destruct s; cbn; congruence.
Qed.

(** X18: [getThickness] returns [(m * d) / 2 * sqrt (n * n - 1)],
    evaluated left to right in binary64, and the result is NaN whenever
    [-1 < n < 1]; in particular whenever [0 <= n < 1], which covers
    every index below 1 that a setter can store. *)
Theorem getThickness_formula_nan (f : Thin_film) :
  getThickness f =
    ((numberOfMaxima f * spectralRange f) / 2 *
     PrimFloat.sqrt (index f * index f - 1))%float /\
  ((-1 <? index f)%float = true -> (index f <? 1)%float = true ->
   is_nan (getThickness f) = true) /\
  ((0 <=? index f)%float = true -> (index f <? 1)%float = true ->
   is_nan (getThickness f) = true).
Proof.
  split; [reflexivity|]. split.
  - intros Hlo Hhi.
    apply is_nan_of_SF, mul_nan_r, sqrt_index_nan; assumption.
  - intros Hlo Hhi. apply ltb_neg_one_of_leb in Hlo.
    apply is_nan_of_SF, mul_nan_r, sqrt_index_nan; assumption.
Qed.

Lemma getThickness_formula_nan_witness :
  is_nan (getThickness (mkFilm [] 50%float 0.5%float 3%float)) = true /\
  is_nan (getThickness (mkFilm [] 50%float 0%float 3%float)) = true.
Proof.
  split.
  - apply (proj1 (proj2 (getThickness_formula_nan (mkFilm [] 50%float 0.5%float 3%float))));
      reflexivity.
  - apply (proj2 (proj2 (getThickness_formula_nan (mkFilm [] 50%float 0%float 3%float))));
      reflexivity.
Defined.

(** C1 fails on the code: a library file holding the index [-2] loads
    a record whose stored index is below 1, and its thickness is not
    NaN: it is the number [75 * sqrt 3], and a CALCULATE on that
    record with spectral range 50 and 3 maxima displays 129.9. *)
Theorem negative_index_thickness_is_a_number :
  let X := mkFilm (T "X") 0%float (-2)%float 0%float in
  let film := setnumberOfMaxima 3%float (setspectralRange 50%float X) in
  (exists w,
     loadData [] "films.txt" (start "" {[ "films.txt"%string := T "X
-2
" ]} ∅) = Done [X] w) /\
  (index film <? 1)%float = true /\
  is_nan (getThickness film) = false /\
  getThickness film = (75 * PrimFloat.sqrt 3)%float /\
  exists w,
    calculateThickness 1 [X] (start "y 1 50 3 n n" ∅ ∅) = Done [X; X] w /\
    obuf (cout w) = T "Read material data from library? (y/n): 
THIN FILM LIBRARY
Material                               Index
 1 X                                  -2.00
Enter the number preceeding the name of the thin film material: Enter the spectral bandwidth over which the spectra was acquired in nm: Enter the number of maxima within the spectral range: 
Material                           Index    # of maxima      Thickness (nm)
X                                  -2.00           3.00               129.9
Would you like to save this measurement result (y/n)? Enter another thin film? (y/n): ".
Proof.
  cbv zeta. split; [eexists; vm_compute; reflexivity|].
  split; [reflexivity|]. split; [reflexivity|]. split; [reflexivity|].
  eexists; split; vm_compute; reflexivity.
Qed.

(** C3 fails on the code: the read paths store what they read.  A
    library file with index [-2] loads a record with a negative index,
    and [read()] stores three negative fields typed at the console. *)
Theorem read_stores_negative_fields :
  (exists l w,
     loadData [] "films.txt" (start "" {[ "films.txt"%string := T "X
-2
" ]} ∅) = Done l w /\
     l = [mkFilm (T "X") 0%float (-2)%float 0%float] /\
     forallb (fun f => (0 <=? index f)%float) l = false) /\
  (exists f w,
     read Thin_film_default (start "X
-1 -50 -3" ∅ ∅) = Done f w /\
     f = mkFilm (T "X") (-50)%float (-1)%float (-3)%float /\
     (0 <=? index f)%float || (0 <=? spectralRange f)%float
       || (0 <=? numberOfMaxima f)%float = false).
Proof.
  split; (eexists; eexists; split; [vm_compute; reflexivity|]);
    split; reflexivity.
Qed.

(** ** The scenario of the specification *)

(** C8 as stated fails: for position 2 of the library SiO2 1.46,
    Si3N4 2.05 with spectral range 50 and 3 maxima the thickness is
    below 135 and the row shows 134.2, not 268.1. *)
Lemma scenario_thickness_not_268 :
  let film := setnumberOfMaxima 3%float (setspectralRange 50%float Si3N4) in
  at_index [SiO2; Si3N4] (2 - 1) = Some Si3N4 /\
  (getThickness film <? 135)%float = true /\
  fmt_fixed 1 (getThickness film) = T "134.2".
Proof. vm_compute. repeat split. Qed.

(** C8, as the code has it: the library file of the scenario loads as
    SiO2 and Si3N4, and a CALCULATE on position 2 with spectral range
    50 and 3 maxima displays the thickness 134.2. *)
Theorem scenario_displays_134_2 :
  (exists w, loadData [] "films.txt" (start "" library_file ∅) = Done [SiO2; Si3N4] w) /\
  exists w,
    calculateThickness 1 [SiO2; Si3N4] (start "y 2 50 3 n n" library_file ∅)
      = Done [SiO2; Si3N4; Si3N4] w /\
    obuf (cout w) = T "Read material data from library? (y/n): 
THIN FILM LIBRARY
Material                               Index
 1 SiO2                                1.46
 2 Si3N4                               2.05
Enter the number preceeding the name of the thin film material: Enter the spectral bandwidth over which the spectra was acquired in nm: Enter the number of maxima within the spectral range: 
Material                           Index    # of maxima      Thickness (nm)
Si3N4                               2.05           3.00               134.2
Would you like to save this measurement result (y/n)? Enter another thin film? (y/n): ".
Proof.
  split; eexists; [|split]; vm_compute; reflexivity.
Qed.

(** C2 fails on the code: the record copied for a measurement stays in
    the in-memory list and is written by the next rewrite of the
    library file.  After a CALCULATE on position 1 (nothing saved) a
    DELETE of position 2 leaves SiO2 twice in [films.txt]; and a film
    typed for a measurement, with both offers to save declined, is in
    the file after a later DELETE. *)
Theorem measurement_record_reaches_library_file :
  (exists w,
     main 10 (start "1 y 1 50 3 n n 4 2 0" library_file ∅) = Done 0 w /\
     files w !! "films.txt"%string = Some (T "SiO2
1.46
SiO2
1.46
")) /\
  (exists w,
     main 10 (start "1 n
X
1.5 50 3 n n n 4 1 0" library_file ∅) = Done 0 w /\
     files w !! "films.txt"%string = Some (T "Si3N4
2.05
X
1.5
")).
Proof.
  split; eexists; split; vm_compute; reflexivity.
Qed.

(** ** Scanning text *)

Lemma skip_while_app (p : ascii -> bool) (x y : text) (c : ascii) (r : text) :
  skip_while p x = c :: r -> skip_while p (x ++ y) = c :: r ++ y.
Proof.
  induction x as [|a x IH]; simpl; [discriminate|].
  destruct (p a); [exact IH|]. intros H. inversion H. reflexivity.
Qed.

Lemma take_while_app (p : ascii -> bool) (x y : text) (c : ascii) (r : text) :
  skip_while p x = c :: r -> take_while p (x ++ y) = take_while p x.
Proof.
  induction x as [|a x IH]; simpl; [discriminate|].
  destruct (p a); [|reflexivity]. intros H. f_equal. exact (IH H).
Qed.

Lemma skip_while_all (p : ascii -> bool) (x : text) (y : text) :
  forallb p x = true -> skip_while p (x ++ y) = skip_while p y.
Proof.
  induction x as [|a x IH]; simpl; [reflexivity|].
  intros H. apply andb_prop in H as [-> H]. exact (IH H).
Qed.

Lemma take_while_all (p : ascii -> bool) (x : text) (c : ascii) (y : text) :
  forallb p x = true -> p c = false -> take_while p (x ++ c :: y) = x.
Proof.
  induction x as [|a x IH]; simpl; intros H Hc.
  - rewrite Hc. reflexivity.
  - apply andb_prop in H as [-> H]. f_equal. exact (IH H Hc).
Qed.

Lemma skip_while_stop (p : ascii -> bool) (x : text) (c : ascii) (y : text) :
  forallb p x = true -> p c = false -> skip_while p (x ++ c :: y) = c :: y.
Proof.
  intros H Hc. rewrite skip_while_all by exact H. simpl. rewrite Hc. reflexivity.
Qed.

Lemma take_while_end (p : ascii -> bool) (x : text) :
  forallb p x = true -> take_while p x = x /\ skip_while p x = [].
Proof.
  induction x as [|a x IH]; simpl; [split; reflexivity|].
  intros H. apply andb_prop in H as [-> H]. destruct (IH H) as [-> ->]. split; reflexivity.
Qed.

Lemma not_newline_nl : not_newline nl = false.
Proof. reflexivity. Qed.

Lemma isspace_nl : isspace nl = true.
Proof. reflexivity. Qed.

(** A clean name is read whole by [ws] and [getline]. *)
Lemma clean_name_inv (n : text) :
  clean_name n = true ->
  exists c r, n = c :: r /\ isspace c = false /\ forallb not_newline n = true.
Proof.
  destruct n as [|c r]; [discriminate|]. unfold clean_name.
  intros H. apply andb_prop in H as [Hc Hn]. exists c, r.
  split; [reflexivity|]. split; [|exact Hn]. destruct (isspace c); [discriminate|reflexivity].
Qed.

Lemma extract_float_loop_app (n : nat) : forall (b : text) fm fd fs t c r y,
  (length b <= n)%nat ->
  extract_float_loop fm fd fs b = (t, c :: r) ->
  extract_float_loop fm fd fs (b ++ y) = (t, c :: r ++ y).
Proof.
  induction n as [|n IH]; intros b fm fd fs t c r y Hn H.
  - destruct b; [discriminate | simpl in Hn; lia].
  - destruct b as [|a b]; [discriminate|]. simpl in Hn.
    cbn [extract_float_loop app] in *.
    destruct (is_digit a).
    { destruct (extract_float_loop true fd fs b) as [x rest] eqn:E.
      inversion H; subst. rewrite (IH b true fd fs x c r y ltac:(lia) E). reflexivity. }
    destruct (is_char a "." && negb fd && negb fs).
    { destruct (extract_float_loop fm true fs b) as [x rest] eqn:E.
      inversion H; subst. rewrite (IH b fm true fs x c r y ltac:(lia) E). reflexivity. }
    destruct ((is_char a "e" || is_char a "E") && negb fs && fm).
    { destruct b as [|a' b']; [discriminate|]. cbn [app]. simpl in Hn.
      destruct (is_char a' "+" || is_char a' "-").
      - destruct (extract_float_loop fm fd true b') as [x rest] eqn:E.
        inversion H; subst. rewrite (IH b' fm fd true x c r y ltac:(lia) E). reflexivity.
      - destruct (extract_float_loop fm fd true (a' :: b')) as [x rest] eqn:E.
        inversion H; subst.
        change (a' :: b' ++ y) with ((a' :: b') ++ y).
        rewrite (IH (a' :: b') fm fd true x c r y ltac:(simpl; lia) E). reflexivity. }
    inversion H; subst. reflexivity.
Qed.

Lemma extract_float_app (b t : text) (c : ascii) (r y : text) :
  extract_float b = (t, c :: r) -> extract_float (b ++ y) = (t, c :: r ++ y).
Proof.
  unfold extract_float. intros H.
  destruct b as [|a b]; [discriminate|]. cbn [app].
  assert (forall b1 sign,
    (let b2 := skip_while (fun c => is_char c "0") b1 in
     let found_zero := negb (Nat.eqb (length b2) (length b1)) in
     let '(x, rest) := extract_float_loop found_zero false false b2 in
     (sign ++ (if found_zero then ["0"%char] else []) ++ x, rest)) = (t, c :: r) ->
    (let b2 := skip_while (fun c => is_char c "0") (b1 ++ y) in
     let found_zero := negb (Nat.eqb (length b2) (length (b1 ++ y))) in
     let '(x, rest) := extract_float_loop found_zero false false b2 in
     (sign ++ (if found_zero then ["0"%char] else []) ++ x, rest)) = (t, c :: r ++ y)) as Hcore.
  { intros b1 sign. cbv zeta. intros H1.
    destruct (skip_while (fun c0 => is_char c0 "0") b1) as [|c2 r2] eqn:Es.
    - simpl in H1. destruct (negb _) in H1; discriminate.
    - rewrite (skip_while_app _ b1 y c2 r2 Es).
      replace (Nat.eqb (length (c2 :: r2 ++ y)) (length (b1 ++ y)))
        with (Nat.eqb (length (c2 :: r2)) (length b1)).
      2:{ change (c2 :: r2 ++ y) with ((c2 :: r2) ++ y). rewrite !length_app.
          destruct (Nat.eqb_spec (length (c2 :: r2)) (length b1)) as [E|E];
            symmetry; [apply Nat.eqb_eq | apply Nat.eqb_neq]; lia. }
      destruct (extract_float_loop _ false false (c2 :: r2)) as [x rest] eqn:E.
      inversion H1; subst.
      change (c2 :: r2 ++ y) with ((c2 :: r2) ++ y).
      rewrite (extract_float_loop_app _ _ _ _ _ _ _ _ y (Nat.le_refl _) E). reflexivity. }
  destruct (is_char a "+" || is_char a "-").
  - apply Hcore. exact H.
  - change (a :: b ++ y) with ((a :: b) ++ y). apply Hcore. exact H.
Qed.

(** ** Reading a library file *)

Lemma readable_index_inv (i : text) :
  readable_index i = true ->
  exists s, extract_double (mkIn (i ++ [nl]) false false) = (Some (index_value i), s) /\
            at_newline s = true.
Proof.
  unfold readable_index, index_value.
  destruct (extract_double (mkIn (i ++ [nl]) false false)) as [[v|] s]; [|discriminate].
  intros H. exists s. split; [reflexivity | exact H].
Qed.

Lemma extract_double_line (i rest : text) (v : float) (s : istream) :
  extract_double (mkIn (i ++ [nl]) false false) = (Some v, s) ->
  at_newline s = true ->
  extract_double (mkIn (i ++ nl :: rest) false false)
    = (Some v, mkIn (nl :: rest) false false).
Proof.
  unfold extract_double, sentry. cbn [good eofbit failbit negb andb ibuf].
  intros H Hs.
  destruct (skip_while isspace (i ++ [nl])) as [|c r] eqn:Es; [discriminate|].
  replace (i ++ nl :: rest) with ((i ++ [nl]) ++ rest) by (rewrite <- app_assoc; reflexivity).
  rewrite (skip_while_app _ _ rest c r Es). cbn [ibuf] in *.
  destruct (extract_float (c :: r)) as [xtrc rb] eqn:Ex.
  destruct (convert_to_v xtrc) as [v' fl] eqn:Ev.
  inversion H; subst. unfold at_newline, good in Hs. cbn in Hs.
  apply andb_prop in Hs as [Hb Hg]. apply bool_decide_eq_true in Hb. subst rb.
  change (c :: r ++ rest) with ((c :: r) ++ rest).
  rewrite (extract_float_app _ _ _ _ rest Ex), Ev. cbn.
  cbn in Hg. destruct fl; [discriminate|]. reflexivity.
Qed.

Lemma read_fin_record (film : Thin_film) (pre n i rest : text) :
  forallb isspace pre = true -> clean_name n = true -> readable_index i = true ->
  read_fin film (mkIn (pre ++ n ++ nl :: i ++ nl :: rest) false false)
    = (mkFilm n (spectralRange film) (index_value i) (numberOfMaxima film),
       mkIn (nl :: rest) false false).
Proof.
  intros Hpre Hn Hi.
  destruct (clean_name_inv n Hn) as (c & r & -> & Hc & Hnl).
  destruct (readable_index_inv i Hi) as (s & Hx & Hs).
  unfold read_fin, ws, sentry. cbn [good eofbit failbit negb andb ibuf].
  rewrite skip_while_all by exact Hpre. cbn [app skip_while]. rewrite Hc.
  cbn [at_end]. unfold getline, sentry. cbn [good eofbit failbit negb andb ibuf].
  change (c :: r ++ nl :: i ++ nl :: rest) with ((c :: r) ++ nl :: i ++ nl :: rest).
  rewrite take_while_all, skip_while_stop by (exact Hnl || reflexivity).
  unfold get_double. rewrite (extract_double_line i rest _ s Hx Hs). reflexivity.
Qed.


Lemma loadData_loop_tail (fuel : nat) (film : Thin_film) (pre tail : text)
    (l : list Thin_film) :
  dropped_tail tail -> forallb isspace pre = true ->
  loadData_loop (S fuel) film (mkIn (pre ++ tail) false false) l = Some l.
Proof.
  intros Ht Hpre. cbn [loadData_loop good eofbit failbit negb andb].
  specialize (Ht film pre Hpre).
  destruct (read_fin film (mkIn (pre ++ tail) false false)) as [film' fin'].
  cbn [snd] in Ht. rewrite Ht. destruct fuel; cbn [loadData_loop]; rewrite Ht; reflexivity.
Qed.

Lemma file_of_cons (r : text * text) (rs : list (text * text)) :
  file_of (r :: rs) = fst r ++ nl :: snd r ++ nl :: file_of rs.
Proof.
  unfold file_of, record_text. cbn [map concat].
  rewrite <- !app_assoc. cbn [app]. rewrite <- app_assoc. reflexivity.
Qed.


Lemma loadData_loop_records (rs : list (text * text)) :
  forall (fuel : nat) (film : Thin_film) (pre tail : text) (l : list Thin_film),
    forallb readable_record rs = true -> dropped_tail tail ->
    forallb isspace pre = true -> (length rs < fuel)%nat ->
    loadData_loop fuel film (mkIn (pre ++ file_of rs ++ tail) false false) l
      = Some (l ++ map (loaded_with film) rs).
Proof.
  induction rs as [|[n i] rs IH]; intros fuel film pre tail l Hrs Ht Hpre Hfuel.
  - destruct fuel as [|fuel]; [simpl in Hfuel; lia|].
    cbn [file_of map concat app]. rewrite loadData_loop_tail by assumption.
    rewrite app_nil_r. reflexivity.
  - destruct fuel as [|fuel]; [simpl in Hfuel; lia|].
    cbn [forallb] in Hrs. apply andb_prop in Hrs as [Hr Hrs].
    unfold readable_record in Hr. cbn [fst snd] in Hr. apply andb_prop in Hr as [Hn Hi].
    rewrite file_of_cons. cbn [fst snd].
    cbn [loadData_loop good eofbit failbit negb andb].
    replace (pre ++ (n ++ nl :: i ++ nl :: file_of rs) ++ tail)
      with (pre ++ n ++ nl :: i ++ nl :: (file_of rs ++ tail)).
    2:{ rewrite <- !app_assoc. cbn [app]. rewrite <- !app_assoc. reflexivity. }
    rewrite read_fin_record by assumption.
    cbn [good eofbit failbit negb andb].
    change (nl :: file_of rs ++ tail) with ([nl] ++ file_of rs ++ tail).
    rewrite (IH fuel _ [nl] tail) by (try assumption; try reflexivity; simpl in Hfuel; lia).
    cbn [map]. rewrite <- app_assoc. reflexivity.
Qed.

Lemma dropped_tail_nil : dropped_tail [].
Proof.
  intros film pre Hpre. rewrite app_nil_r.
  unfold read_fin, ws, sentry. cbn [good eofbit failbit negb andb ibuf].
  rewrite <- (app_nil_r pre), skip_while_all by exact Hpre. cbn [skip_while at_end].
  reflexivity.
Qed.

Lemma dropped_tail_name (n : text) : clean_name n = true -> dropped_tail n.
Proof.
  intros Hn film pre Hpre.
  destruct (clean_name_inv n Hn) as (c & r & -> & Hc & Hnl).
  unfold read_fin, ws, sentry. cbn [good eofbit failbit negb andb ibuf].
  rewrite skip_while_all by exact Hpre. cbn [skip_while]. rewrite Hc. cbn [at_end].
  unfold getline, sentry. cbn [good eofbit failbit negb andb ibuf].
  destruct (take_while_end not_newline (c :: r) Hnl) as [-> ->].
  reflexivity.
Qed.

Lemma dropped_tail_name_line (n : text) : clean_name n = true -> dropped_tail (n ++ [nl]).
Proof.
  intros Hn film pre Hpre.
  destruct (clean_name_inv n Hn) as (c & r & -> & Hc & Hnl).
  unfold read_fin, ws, sentry. cbn [good eofbit failbit negb andb ibuf].
  rewrite skip_while_all by exact Hpre. cbn [app skip_while]. rewrite Hc. cbn [at_end].
  unfold getline, sentry. cbn [good eofbit failbit negb andb ibuf].
  change (c :: r ++ [nl]) with ((c :: r) ++ [nl]).
  rewrite take_while_all, skip_while_stop by (exact Hnl || reflexivity).
  reflexivity.
Qed.

(** ** Writing the library file *)

Lemma put_width_0 (s : text) (o : ostream) :
  width o = 0 ->
  put s o = mkOut (obuf o ++ s) (fixed o) (precision o) 0 (adjust_left o).
Proof.
  intros Hw. unfold put, padding. rewrite Hw. cbn [Z.to_nat Nat.sub repeat].
  destruct (adjust_left o); [rewrite app_nil_r|]; reflexivity.
Qed.

Lemma writeFile_fresh (f : Thin_film) (o : ostream) :
  fixed o = false -> precision o = 6 -> width o = 0 ->
  obuf (writeFile f o) = obuf o ++ film_text f /\
  fixed (writeFile f o) = false /\ precision (writeFile f o) = 6 /\
  width (writeFile f o) = 0.
Proof.
  intros Hf Hp Hw. unfold writeFile, put_double, endl.
  rewrite (put_width_0 (mat f) o Hw). cbn [obuf fixed precision width adjust_left].
  rewrite put_width_0 by reflexivity. cbn [obuf fixed precision width adjust_left].
  unfold fmt_double. cbn [fixed precision]. rewrite Hf, Hp.
  unfold film_text. repeat split; try assumption.
  rewrite <- !app_assoc. reflexivity.
Qed.

Lemma fold_writeFile (l : list Thin_film) : forall o : ostream,
  fixed o = false -> precision o = 6 -> width o = 0 ->
  obuf (fold_left (fun o f => writeFile f o) l o) = obuf o ++ concat (map film_text l).
Proof.
  induction l as [|f l IH]; intros o Hf Hp Hw; cbn [fold_left map concat].
  - rewrite app_nil_r. reflexivity.
  - destruct (writeFile_fresh f o Hf Hp Hw) as (Hb & Hf' & Hp' & Hw').
    rewrite IH, Hb, <- app_assoc by assumption. reflexivity.
Qed.

Lemma library_text_concat (l : list Thin_film) :
  library_text l = concat (map film_text l).
Proof. unfold library_text. rewrite fold_writeFile by reflexivity. reflexivity. Qed.

Lemma library_text_printed (l : list Thin_film) :
  library_text l = file_of (map printed l).
Proof.
  rewrite library_text_concat. unfold file_of. rewrite map_map. reflexivity.
Qed.

Lemma printed_loaded (rs : list (text * text)) :
  map printed (map loaded rs) = map reprinted rs.
Proof. rewrite map_map. reflexivity. Qed.

Lemma reprinted_same (rs : list (text * text)) :
  Forall (fun r => fmt_general 6 (index_value (snd r)) = snd r) rs ->
  map reprinted rs = rs.
Proof.
  induction 1 as [|[n i] rs H _ IH]; [reflexivity|].
  cbn [map]. rewrite IH. unfold reprinted. cbn [fst snd] in *. rewrite H. reflexivity.
Qed.

Lemma length_file_of (rs : list (text * text)) : (length rs <= length (file_of rs))%nat.
Proof.
  induction rs as [|r rs IH]; [reflexivity|].
  rewrite file_of_cons, length_app. cbn [length]. rewrite length_app. cbn [length]. lia.
Qed.

Lemma extract_double_bad_start (c : ascii) (rest : text) :
  bad_start c = true ->
  extract_double (mkIn (c :: rest) false false)
    = (Some 0%float, mkIn (c :: rest) false true).
Proof.
  unfold bad_start. intros Hc.
  apply andb_prop in Hc as [Hc Hpt]. apply andb_prop in Hc as [Hc Hmi].
  apply andb_prop in Hc as [Hc Hpl]. apply andb_prop in Hc as [Hsp Hdg].
  apply negb_true_iff in Hsp, Hdg, Hpl, Hmi, Hpt.
  assert (is_char c "0" = false) as H0.
  { destruct (is_char c "0") eqn:E; [|reflexivity].
    apply Ascii.eqb_eq in E. subst c. discriminate Hdg. }
  unfold extract_double, sentry. cbn [good eofbit failbit negb andb ibuf skip_while].
  rewrite Hsp. cbn [ibuf]. unfold extract_float. rewrite Hpl, Hmi. cbn [orb skip_while].
  rewrite H0, Nat.eqb_refl. cbn [negb extract_float_loop].
  rewrite Hdg, Hpt. cbn [andb orb negb]. rewrite andb_false_r. reflexivity.
Qed.

Lemma dropped_tail_bad_index (n : text) (c : ascii) (rest : text) :
  clean_name n = true -> bad_start c = true -> dropped_tail (n ++ nl :: c :: rest).
Proof.
  intros Hn Hc film pre Hpre.
  destruct (clean_name_inv n Hn) as (c0 & r & -> & Hc0 & Hnl).
  unfold read_fin, ws, sentry. cbn [good eofbit failbit negb andb ibuf].
  rewrite skip_while_all by exact Hpre. cbn [app skip_while]. rewrite Hc0.
  cbn [at_end]. unfold getline, sentry. cbn [good eofbit failbit negb andb ibuf].
  change (c0 :: r ++ nl :: c :: rest) with ((c0 :: r) ++ nl :: c :: rest).
  rewrite take_while_all, skip_while_stop by (exact Hnl || reflexivity).
  unfold get_double. rewrite (extract_double_bad_start c rest Hc). reflexivity.
Qed.

Lemma load_stop_dropped (tail : text) : load_stop tail -> dropped_tail tail.
Proof.
  intros [|n Hn|n Hn|n c rest Hn Hc];
    [apply dropped_tail_nil | apply dropped_tail_name | apply dropped_tail_name_line
    | apply dropped_tail_bad_index]; assumption.
Qed.

Lemma loadData_file (rs : list (text * text)) (tail : text) (l : list Thin_film)
    (name : string) (w : World) :
  forallb readable_record rs = true -> dropped_tail tail ->
  files w !! name = Some (file_of rs ++ tail) ->
  loadData l name w = Done (l ++ map loaded rs) w.
Proof.
  intros Hrs Ht Hf. unfold loadData, bind, read_file. cbv beta iota. rewrite Hf.
  change (file_of rs ++ tail) with ([] ++ file_of rs ++ tail) at 2.
  rewrite loadData_loop_records; [reflexivity|assumption|assumption|reflexivity|].
  rewrite length_app. pose proof (length_file_of rs). lia.
Qed.

(** X19: [loadData] appends the records of a file of (name line, index
    line) pairs in file order, each with the number its index line
    reads as and with spectral range and maxima 0, and stops with
    nothing more appended at the end of the file, at a name line left
    alone, or at the first index that does not start a number; when the
    file cannot be opened it prints a message and the process exits
    with status 1. *)
Theorem loadData_reads_pairs :
  (forall (rs : list (text * text)) (tail : text) (l : list Thin_film)
          (name : string) (w : World),
      forallb readable_record rs = true -> load_stop tail ->
      files w !! name = Some (file_of rs ++ tail) ->
      loadData l name w = Done (l ++ map loaded rs) w) /\
  (forall (l : list Thin_film) (name : string) (w : World),
      files w !! name = None ->
      loadData l name w =
        Exited 1 (after w (cin w)
                    (cout w |> puts "File " |> puts name |> puts " failed to open.
"))) /\
  map loaded [(T "SiO2", T "1.46"); (T "Si3N4", T "2.05"); (T "thin film a", T "-2");
              (T "b", T "007.50"); (T "c", T "1e3"); (T "d", T "2.5E-3"); (T "e", T ".5");
              (T "f", T " 1.4567891")]
    = [SiO2; Si3N4; mkFilm (T "thin film a") 0%float (-2)%float 0%float;
       mkFilm (T "b") 0%float 7.5%float 0%float;
       mkFilm (T "c") 0%float 1000%float 0%float;
       mkFilm (T "d") 0%float 0.0025%float 0%float;
       mkFilm (T "e") 0%float 0.5%float 0%float;
       mkFilm (T "f") 0%float 1.4567891%float 0%float].
Proof.
  split; [|split].
  - intros rs tail l name w Hrs Ht Hf.
    apply (loadData_file rs tail); [assumption | apply load_stop_dropped; assumption | assumption].
  - intros l name w Hf. unfold loadData, bind, read_file. cbv beta iota.
    rewrite Hf. reflexivity.
  - vm_compute. reflexivity.
Qed.

Lemma loadData_reads_pairs_witness :
  loadData [] "films.txt"
    (start "" {[ "films.txt"%string := file_of [(T "SiO2", T "1.46")] ++ T "Si3N4
abc
TiO2
2.4
" ]} ∅)
  = Done ([] ++ map loaded [(T "SiO2", T "1.46")])
      (start "" {[ "films.txt"%string := file_of [(T "SiO2", T "1.46")] ++ T "Si3N4
abc
TiO2
2.4
" ]} ∅).
Proof.
  apply (proj1 loadData_reads_pairs [(T "SiO2", T "1.46")] (T "Si3N4
abc
TiO2
2.4
")).
  - vm_compute. reflexivity.
  - apply (stop_bad_index (T "Si3N4") "a"%char (T "bc
TiO2
2.4
")); reflexivity.
  - vm_compute. reflexivity.
Defined.

(** C9 fails on the code: a library file whose last record is a whole
    (name line, index line) pair, but whose last line is not ended by
    a newline, loads without that record: [read] takes the name and
    the number, reading the number reaches the end of the file and
    sets [eofbit], and [if (fin.good())] skips the [push_back].  And
    loading does not go on to the end of the input: it stops at the
    first index that is not a number, and the records after it are
    not loaded. *)
Theorem loadData_drops_complete_last_pair :
  read_fin Thin_film_default (mkIn (T "Si3N4
2.05") false false) = (Si3N4, mkIn [] true false) /\
  loadData [] "films.txt" (start "" {[ "films.txt"%string := T "SiO2
1.46
Si3N4
2.05" ]} ∅)
    = Done [SiO2] (start "" {[ "films.txt"%string := T "SiO2
1.46
Si3N4
2.05" ]} ∅) /\
  loadData [] "films.txt" (start "" {[ "films.txt"%string := T "A
abc
B
2
C
3
" ]} ∅)
    = Done [] (start "" {[ "films.txt"%string := T "A
abc
B
2
C
3
" ]} ∅).
Proof.
  split; [|split]; vm_compute; reflexivity.
Qed.

(** C5, as the code has it: for a library file of records whose names
    are clean and whose index lines read whole, loading gives the
    records in order with spectral range and maxima 0, and saving the
    loaded list writes the file back with every name line kept and
    every index line replaced by the six-digit print of the number it
    reads as; so the file is unchanged when every index line is that
    print already. *)
Theorem reload_and_save_reprints :
  (forall (rs : list (text * text)) (w : World),
      forallb readable_record rs = true ->
      Z.of_nat (length rs) < 2 ^ 32 ->
      files w !! "films.txt"%string = Some (file_of rs) ->
      "films.txt"%string ∉ readonly w ->
      loadData [] "films.txt" w = Done (map loaded rs) w /\
      reload_and_save w =
        Done tt (mkWorld (cin w) (cout w)
                   (<["films.txt"%string := file_of (map reprinted rs)]> (files w))
                   (readonly w)) /\
      (Forall (fun r => fmt_general 6 (index_value (snd r)) = snd r) rs ->
       reload_and_save w = Done tt w)) /\
  map reprinted [(T "SiO2", T "1.46"); (T "Si3N4", T "2.05"); (T "a", T "1.4567891");
                 (T "b", T "1.50"); (T "c", T " 2"); (T "d", T "1e3");
                 (T "e", T "1234567"); (T "f", T "-2"); (T "g", T "1e-318")]
    = [(T "SiO2", T "1.46"); (T "Si3N4", T "2.05"); (T "a", T "1.45679");
       (T "b", T "1.5"); (T "c", T "2"); (T "d", T "1000");
       (T "e", T "1.23457e+06"); (T "f", T "-2"); (T "g", T "9.99999e-319")].
Proof.
  split; [|vm_compute; reflexivity].
  intros rs w Hr Hlen Hf Hro.
  assert (loadData [] "films.txt" w = Done (map loaded rs) w) as Hload.
  { apply (loadData_file rs [] [] "films.txt" w).
    - exact Hr.
    - apply dropped_tail_nil.
    - rewrite app_nil_r. exact Hf. }
  assert (reload_and_save w =
        Done tt (mkWorld (cin w) (cout w)
                   (<["films.txt"%string := file_of (map reprinted rs)]> (files w))
                   (readonly w))) as Hsave.
  { unfold reload_and_save, bind. rewrite Hload.
    unfold saveData, bind, can_write, counted, write_file.
    rewrite bool_decide_eq_false_2 by exact Hro. cbn [negb].
    rewrite length_map.
    destruct (2 ^ 32 <=? Z.of_nat (length rs)) eqn:E; [apply Z.leb_le in E; lia|].
    rewrite library_text_printed, printed_loaded. reflexivity. }
  split; [exact Hload|]. split; [exact Hsave|].
  intros Hsame. rewrite Hsave, reprinted_same by exact Hsame.
  rewrite insert_id by exact Hf. destruct w; reflexivity.
Qed.

Lemma reload_and_save_reprints_witness :
  reload_and_save (start "" {[ "films.txt"%string := T "TiO2
2.4567891
SiO2
1.46
" ]} ∅)
  = Done tt (start "" {[ "films.txt"%string := T "TiO2
2.45679
SiO2
1.46
" ]} ∅).
Proof.
  refine (eq_trans (proj1 (proj2 (proj1 reload_and_save_reprints
            [(T "TiO2", T "2.4567891"); (T "SiO2", T "1.46")]
            (start "" {[ "films.txt"%string := T "TiO2
2.4567891
SiO2
1.46
" ]} ∅) _ _ _ _))) _).
  - vm_compute. reflexivity.
  - vm_compute. reflexivity.
  - vm_compute. reflexivity.
  - unfold start. cbn [readonly]. apply not_elem_of_empty.
  - vm_compute. reflexivity.
Defined.

(** C5 as stated fails: an index written with more than six digits
    comes back shortened, the line [1e-318] (the six-digit print of the
    subnormal number 202403 * 2^-1074) comes back as [9.99999e-319],
    and a file whose last line has no newline comes back without its
    last record. *)
Lemma reload_and_save_changes_file :
  (exists w,
     reload_and_save (start "" {[ "films.txt"%string := T "SiO2
1.4567891
" ]} ∅) = Done tt w /\
     files w !! "films.txt"%string = Some (T "SiO2
1.45679
")) /\
  (exists w,
     fmt_general 6 0x316a3p-1074%float = T "1e-318" /\
     reload_and_save (start "" {[ "films.txt"%string := T "X
1e-318
" ]} ∅) = Done tt w /\
     files w !! "films.txt"%string = Some (T "X
9.99999e-319
")) /\
  (exists w,
     reload_and_save (start "" {[ "films.txt"%string := T "SiO2
1.46
Si3N4
2.05" ]} ∅) = Done tt w /\
     files w !! "films.txt"%string = Some (T "SiO2
1.46
")).
Proof.
  split; [|split].
  - eexists. split; vm_compute; reflexivity.
  - eexists. split; [|split]; vm_compute; reflexivity.
  - eexists. split; vm_compute; reflexivity.
Qed.

(** ** DELETE *)

Lemma getFilmIndex_reads (l : list Thin_film) (w : World) (k : Z) (s : istream) :
  Z.of_nat (length l) < 2 ^ 32 -> get_int 0 (cin w) = (k, s) ->
  getFilmIndex l w =
    if k =? INT_MIN then Undefined
    else Done (k - 1) (after w s (getFilmIndex_output l (cout w))).
Proof.
  intros Hlen Hk. unfold getFilmIndex, listFilms, bind, out, counted, inp.
  cbn [cin cout files readonly].
  destruct (2 ^ 32 <=? Z.of_nat (length l)) eqn:E; [apply Z.leb_le in E; lia|].
  cbn [cin cout files readonly]. rewrite Hk.
  destruct (k =? INT_MIN); reflexivity.
Qed.

Lemma deleteFilm_loop_shift (n : nat) : forall (i : nat) (v : list Thin_film) (fuel : nat),
  (i + n + 1 = length v)%nat -> Z.of_nat (length v) < 2 ^ 32 -> (n <= fuel)%nat ->
  deleteFilm_loop fuel (Z.of_nat i) v
    = LoopDone (take i v ++ drop (S i) v ++ drop (length v - 1) v).
Proof.
  induction n as [|n IH]; intros i v fuel Hi Hlen Hfuel.
  - assert ((Z.of_nat (length v) - 1) mod 2 ^ 64 = Z.of_nat i) as Hb.
    { rewrite Z.mod_small; [lia|]. change (2 ^ 64) with 18446744073709551616.
      change (2 ^ 32) with 4294967296 in Hlen. lia. }
    destruct fuel; cbn [deleteFilm_loop]; rewrite Hb, Z.ltb_irrefl;
      (rewrite (drop_ge v (S i)) by lia);
      (replace (length v - 1)%nat with i by lia);
      cbn [app]; rewrite take_drop; reflexivity.
  - destruct fuel as [|fuel]; [lia|].
    cbn [deleteFilm_loop].
    assert ((Z.of_nat (length v) - 1) mod 2 ^ 64 = Z.of_nat (length v) - 1) as Hb.
    { rewrite Z.mod_small; [lia|]. change (2 ^ 64) with 18446744073709551616.
      change (2 ^ 32) with 4294967296 in Hlen. lia. }
    rewrite Hb. destruct (Z.ltb_spec (Z.of_nat i) (Z.of_nat (length v) - 1)) as [_|Hge]; [|lia].
    assert ((Z.of_nat i + 1) mod 2 ^ 32 = Z.of_nat (S i)) as Hi1.
    { rewrite Z.mod_small; [lia|]. change (2 ^ 32) with 4294967296 in *. lia. }
    rewrite Hi1, !Nat2Z.id.
    destruct (lookup_lt_is_Some_2 v i ltac:(lia)) as [a Ha].
    destruct (lookup_lt_is_Some_2 v (S i) ltac:(lia)) as [x Hx].
    rewrite Ha, Hx.
    rewrite (IH (S i) (<[i:=x]> v) fuel) by (rewrite ?length_insert; lia).
    rewrite length_insert. f_equal.
    rewrite (take_S_r (<[i:=x]> v) i x) by (apply list_lookup_insert_eq; lia).
    rewrite take_insert_ge by lia.
    rewrite !drop_insert_lt by lia.
    rewrite (drop_S v x (S i) Hx), <- !app_assoc. reflexivity.
Qed.

Lemma drop_last_one (v : list Thin_film) :
  (0 < length v)%nat -> exists z, drop (length v - 1) v = [z].
Proof.
  intros H. pose proof (length_drop v (length v - 1)) as Hl.
  destruct (drop (length v - 1) v) as [|z [|z' r]]; cbn [length] in Hl; try lia.
  exists z. reflexivity.
Qed.

Lemma lookup_removed (l : list Thin_film) (i j : nat) :
  (i < length l)%nat ->
  (take i l ++ drop (S i) l) !! j = if decide (j < i)%nat then l !! j else l !! S j.
Proof.
  intros Hi. destruct (decide (j < i)%nat) as [Hj|Hj].
  - rewrite lookup_app_l by (rewrite length_take; lia).
    rewrite lookup_take. destruct (decide (j < i)%nat); [reflexivity|lia].
  - rewrite lookup_app_r by (rewrite length_take; lia).
    rewrite length_take, lookup_drop. f_equal. lia.
Qed.

(** C6: for a position [k] with [1 <= k <= N], DELETE returns the list
    without its [k]-th element (size [N - 1], elements before [k] in
    place, elements after [k] one place to the left) and rewrites
    [films.txt] from that list: the new content is, for each record
    left and in order, its name line and its index line. *)
Theorem deleteFilm_removes_position (l : list Thin_film) (w : World) (k : Z) (s : istream) :
  get_int 0 (cin w) = (k, s) ->
  1 <= k <= Z.of_nat (length l) ->
  Z.of_nat (length l) < 2 ^ 32 ->
  "films.txt"%string ∉ readonly w ->
  exists l',
    deleteFilm l w =
      Done l' (mkWorld s (getFilmIndex_output l (cout w))
                 (<["films.txt"%string := concat (map film_text l')]> (files w))
                 (readonly w)) /\
    length l' = (length l - 1)%nat /\
    (forall j : nat, Z.of_nat j < k - 1 -> l' !! j = l !! j) /\
    (forall j : nat, k - 1 <= Z.of_nat j -> l' !! j = l !! S j).
Proof.
  intros Hk Hrange Hlen Hro.
  set (i := Z.to_nat (k - 1)).
  exists (take i l ++ drop (S i) l).
  assert ((i < length l)%nat) as Hi by lia.
  split; [|split; [|split]].
  - unfold deleteFilm, bind. rewrite (getFilmIndex_reads l w k s Hlen Hk).
    destruct (Z.eqb_spec k INT_MIN) as [E|_]; [unfold INT_MIN in E; lia|].
    assert ((k - 1) mod 2 ^ 32 = Z.of_nat i) as Hmod.
    { rewrite Z.mod_small; [lia|]. change (2 ^ 32) with 4294967296 in *. lia. }
    rewrite Hmod.
    rewrite (deleteFilm_loop_shift (length l - 1 - i) i l) by lia.
    destruct (drop_last_one l ltac:(lia)) as [z Hz]. rewrite Hz.
    replace (take i l ++ drop (S i) l ++ [z]) with ((take i l ++ drop (S i) l) ++ [z])
      by (rewrite <- app_assoc; reflexivity).
    unfold pop_back.
    destruct ((take i l ++ drop (S i) l) ++ [z]) as [|y r] eqn:E;
      [apply app_eq_nil in E as [_ E]; discriminate|].
    rewrite <- E, removelast_last.
    unfold saveData, bind, can_write, counted, write_file, ret, after.
    cbn [cin cout files readonly].
    rewrite bool_decide_eq_false_2 by exact Hro. cbn [negb].
    destruct (2 ^ 32 <=? Z.of_nat (length (take i l ++ drop (S i) l))) eqn:E2.
    { apply Z.leb_le in E2. rewrite length_app, length_take, length_drop in E2. lia. }
    rewrite library_text_concat. reflexivity.
  - rewrite length_app, length_take, length_drop. lia.
  - intros j Hj. rewrite lookup_removed by exact Hi.
    destruct (decide (j < i)%nat); [reflexivity|lia].
  - intros j Hj. rewrite lookup_removed by exact Hi.
    destruct (decide (j < i)%nat); [lia|reflexivity].
Qed.

Lemma deleteFilm_removes_position_witness :
  exists l',
    deleteFilm [SiO2; Si3N4] (start "1" library_file ∅) =
      Done l' (mkWorld (mkIn [] true false)
                 (getFilmIndex_output [SiO2; Si3N4] (cout (start "1" library_file ∅)))
                 (<["films.txt"%string := concat (map film_text l')]>
                    (files (start "1" library_file ∅)))
                 (readonly (start "1" library_file ∅))) /\
    length l' = (length [SiO2; Si3N4] - 1)%nat /\
    (forall j : nat, Z.of_nat j < 1 - 1 -> l' !! j = [SiO2; Si3N4] !! j) /\
    (forall j : nat, 1 - 1 <= Z.of_nat j -> l' !! j = [SiO2; Si3N4] !! S j).
Proof.
  apply (deleteFilm_removes_position [SiO2; Si3N4] (start "1" library_file ∅) 1
           (mkIn [] true false)).
  - vm_compute. reflexivity.
  - cbn [length]. lia.
  - cbn [length]. reflexivity.
  - unfold start. cbn [readonly]. apply not_elem_of_empty.
Defined.

(** ** Positions outside the library *)

Lemma at_index_outside (l : list Thin_film) (p : Z) :
  p < 1 \/ Z.of_nat (length l) < p -> at_index l (p - 1) = None.
Proof.
  intros H. unfold at_index. destruct (Z.ltb_spec (p - 1) 0) as [|Hge]; [reflexivity|].
  apply lookup_ge_None_2. lia.
Qed.

(** C10: positions are used unchecked.  In CALCULATE a position below 1
    or above the size of the library makes [materialList[pos]] an access
    outside the vector; in DELETE on an empty library every position
    does. *)
Theorem positions_unchecked :
  (forall (fuel : nat) (l : list Thin_film) (w : World) (p : Z) (s1 s2 : istream),
      get_string (T "y") (cin w) = (T "y", s1) ->
      get_int 0 s1 = (p, s2) ->
      p < 1 \/ Z.of_nat (length l) < p ->
      Z.of_nat (length l) < 2 ^ 32 ->
      calculateThickness (S fuel) l w = Undefined) /\
  (forall w : World, deleteFilm [] w = Undefined).
Proof.
  split.
  - intros fuel l w p s1 s2 Hy Hp Hout Hlen.
    unfold calculateThickness. cbn [calculateThickness_loop].
    change (text_eqb (T "y") "y") with true. cbv iota.
    unfold bind at 1. unfold out at 1. unfold bind at 1. unfold inp at 1.
    cbn [cin cout files readonly]. rewrite Hy.
    change (text_eqb (T "y") "y") with true. cbv iota.
    unfold bind at 1. unfold bind at 1.
    rewrite (getFilmIndex_reads l _ p s2 Hlen) by (cbn [cin]; exact Hp).
    destruct (p =? INT_MIN); [reflexivity|].
    rewrite (at_index_outside l p Hout). reflexivity.
  - intros w. unfold deleteFilm, bind.
    destruct (get_int 0 (cin w)) as [k s] eqn:Hk.
    rewrite (getFilmIndex_reads [] w k s ltac:(cbn; lia) Hk).
    destruct (k =? INT_MIN); [reflexivity|].
    cbn [length deleteFilm_loop].
    assert (0 <= (k - 1) mod 2 ^ 32 < 2 ^ 32) as Hm by (apply Z.mod_pos_bound; reflexivity).
    change ((Z.of_nat 0 - 1) mod 2 ^ 64) with 18446744073709551615.
    destruct (Z.ltb_spec ((k - 1) mod 2 ^ 32) 18446744073709551615) as [_|Hge];
      [|change (2 ^ 32) with 4294967296 in *; lia].
    reflexivity.
Qed.

Lemma positions_unchecked_witness :
  calculateThickness 1 [SiO2; Si3N4] (start "y 3" library_file ∅) = Undefined.
Proof.
  apply (proj1 positions_unchecked 0%nat [SiO2; Si3N4] (start "y 3" library_file ∅) 3
           (mkIn (T " 3") false false) (mkIn [] true false)).
  - vm_compute. reflexivity.
  - vm_compute. reflexivity.
  - right. cbn [length]. lia.
  - cbn [length]. reflexivity.
Defined.

(** ** ADD *)

(** C7: ADD leaves the in-memory list as it is (the menu loop goes on
    with the same list) and, when the answer is [y], appends the name
    line and the index line to [films.txt]; the file is never
    rewritten. *)
Theorem addMaterial_appends_only :
  (forall w : World,
      let '(m, i, a, s) := addMaterial_input (cin w) in
      let o := addMaterial_output m i (cout w) in
      addMaterial w =
        if text_eqb a "y" then
          if bool_decide ("films.txt"%string ∈ readonly w) then
            Exited 255 (after w s (o |> puts "Output file failed to open.
"))
          else
            Done tt (mkWorld s o
                       (<["films.txt"%string :=
                            default [] (files w !! "films.txt"%string)
                              ++ m ++ nl :: fmt_general 6 i ++ [nl]]> (files w))
                       (readonly w))
        else Done tt (after w s o)) /\
  (forall (fuel : nat) (c : Z) (l : list Thin_film) (w : World) (s : istream),
      c <> 0 ->
      get_int c (cin w) = (ADD_MATERIAL, s) ->
      main_loop (S fuel) c l w =
        bind addMaterial (fun _ => main_loop fuel ADD_MATERIAL l)
          (after w s (menu (cout w)))).
Proof.
  split.
  - intros w. unfold addMaterial_input, addMaterial.
    unfold bind, out, inp. cbn [cin cout files readonly].
    destruct (getline [] (ws (cin w))) as [m s2].
    cbn [cin cout files readonly].
    destruct (get_double 0%float s2) as [i s3].
    cbn [cin cout files readonly].
    destruct (get_string (T "n") s3) as [a s4].
    cbn [cin cout files readonly].
    destruct (text_eqb a "y"); [|reflexivity].
    unfold can_write, open_failed, append_file, bind, out, exit.
    cbn [cin cout files readonly].
    destruct (bool_decide ("films.txt"%string ∈ readonly w)); cbn [negb]; [reflexivity|].
    unfold after, addMaterial_output.
    change (obuf (ostream_init |> put m |> endl |> put_double i |> endl))
      with (obuf (writeFile (mkFilm m 0%float i 0%float) ostream_init)).
    destruct (writeFile_fresh (mkFilm m 0%float i 0%float) ostream_init) as [-> _];
      reflexivity.
  - intros fuel c l w s Hc0 Hc.
    cbn [main_loop].
    destruct (Z.eqb_spec c 0) as [E|_]; [contradiction|].
    unfold bind at 1. unfold out at 1. unfold bind at 1. unfold inp at 1.
    cbn [cin cout files readonly]. rewrite Hc.
    change (ADD_MATERIAL =? CAL_THICKNESS) with false.
    change (ADD_MATERIAL =? MATERIAL_LIST) with false.
    change (ADD_MATERIAL =? ADD_MATERIAL) with true. cbv iota.
    unfold bind, after, ret. destruct (addMaterial _); reflexivity.
Qed.

Lemma addMaterial_appends_only_witness :
  main_loop 2 1 [SiO2] (start "3 TiO2
2.4 y 0" library_file ∅) =
  bind addMaterial (fun _ => main_loop 1 ADD_MATERIAL [SiO2])
    (after (start "3 TiO2
2.4 y 0" library_file ∅) (mkIn (T " TiO2
2.4 y 0") false false) (menu (cout (start "3 TiO2
2.4 y 0" library_file ∅)))).
Proof.
  apply (proj2 addMaterial_appends_only 1%nat 1 [SiO2]).
  - discriminate.
  - vm_compute. reflexivity.
Defined.

(** ** [loadData] ends on every file *)

Lemma skip_while_length (p : ascii -> bool) (b : text) :
  (length (skip_while p b) <= length b)%nat.
Proof.
  induction b as [|c b IH]; cbn [skip_while length]; [lia|].
  destruct (p c); cbn [length]; lia.
Qed.

Lemma extract_float_loop_length (n : nat) : forall (b : text) fm fd fs,
  (length b <= n)%nat ->
  (length (snd (extract_float_loop fm fd fs b)) <= length b)%nat.
Proof.
  induction n as [|n IH]; intros b fm fd fs Hn.
  - destruct b; [cbn; lia | cbn [length] in Hn; lia].
  - destruct b as [|a b]; [cbn; lia|]. cbn [length] in Hn.
    cbn [extract_float_loop].
    destruct (is_digit a).
    { specialize (IH b true fd fs ltac:(lia)).
      destruct (extract_float_loop true fd fs b). cbn [snd length] in *. lia. }
    destruct (is_char a "." && negb fd && negb fs).
    { specialize (IH b fm true fs ltac:(lia)).
      destruct (extract_float_loop fm true fs b). cbn [snd length] in *. lia. }
    destruct ((is_char a "e" || is_char a "E") && negb fs && fm); [|cbn [snd length]; lia].
    destruct b as [|a' b']; [cbn; lia|]. cbn [length] in Hn.
    destruct (is_char a' "+" || is_char a' "-").
    + specialize (IH b' fm fd true ltac:(lia)).
      destruct (extract_float_loop fm fd true b'). cbn [snd length] in *. lia.
    + specialize (IH (a' :: b') fm fd true ltac:(cbn [length]; lia)).
      destruct (extract_float_loop fm fd true (a' :: b')). cbn [snd length] in *. lia.
Qed.

Lemma extract_float_length (b : text) :
  (length (snd (extract_float b)) <= length b)%nat.
Proof.
  unfold extract_float.
  assert (forall b1 sign,
    (length (snd (let b2 := skip_while (fun c => is_char c "0") b1 in
       let found_zero := negb (Nat.eqb (length b2) (length b1)) in
       let '(x, rest) := extract_float_loop found_zero false false b2 in
       (sign ++ (if found_zero then ["0"%char] else []) ++ x, rest))) <= length b1)%nat) as Hcore.
  { intros b1 sign. cbv zeta.
    pose proof (skip_while_length (fun c => is_char c "0") b1) as Hs.
    pose proof (extract_float_loop_length _ (skip_while (fun c => is_char c "0") b1)
                  (negb (Nat.eqb (length (skip_while (fun c => is_char c "0") b1)) (length b1)))
                  false false (Nat.le_refl _)) as Hl.
    destruct (extract_float_loop _ false false _). cbn [snd] in *.
    exact (Nat.le_trans _ _ _ Hl Hs). }
  destruct b as [|a b]; [apply (Hcore [] [])|].
  destruct (is_char a "+" || is_char a "-").
  - eapply Nat.le_trans; [apply (Hcore b [a]) | cbn [length]; lia].
  - apply Hcore.
Qed.

Lemma extract_double_length (s : istream) :
  (length (ibuf (snd (extract_double s))) <= length (ibuf s))%nat.
Proof.
  unfold extract_double, sentry.
  destruct (good s); [|cbn; lia].
  pose proof (skip_while_length isspace (ibuf s)) as Hs.
  destruct (skip_while isspace (ibuf s)) as [|c r]; [cbn; lia|].
  pose proof (extract_float_length (c :: r)) as He. cbn [ibuf].
  destruct (extract_float (c :: r)) as [x rest].
  destruct (convert_to_v x). cbn [snd ibuf] in *. lia.
Qed.

Lemma extract_double_good (s : istream) :
  good (snd (extract_double s)) = true -> good s = true.
Proof.
  unfold extract_double, sentry.
  destruct (good s) eqn:E; [reflexivity|].
  cbn [snd]. unfold good, setstate. cbn [eofbit failbit].
  rewrite orb_true_r, andb_false_r. discriminate.
Qed.

Lemma getline_progress (str : text) (s : istream) :
  good (snd (getline str s)) = true ->
  (length (ibuf (snd (getline str s))) < length (ibuf s))%nat.
Proof.
  unfold getline, sentry.
  destruct (good s) eqn:E.
  - pose proof (skip_while_length not_newline (ibuf s)) as Hs.
    destruct (skip_while not_newline (ibuf s)) as [|c r]; cbn [snd ibuf length] in *;
      [discriminate | lia].
  - cbn [snd]. unfold good, setstate. cbn [eofbit failbit].
    rewrite orb_true_r, andb_false_r. discriminate.
Qed.

Lemma ws_length (s : istream) : (length (ibuf (ws s)) <= length (ibuf s))%nat.
Proof.
  unfold ws, sentry. destruct (good s); [|cbn; lia].
  cbn [ibuf]. apply skip_while_length.
Qed.

(** Each turn of the loop that leaves the stream good has consumed
    at least one character. *)
Lemma read_fin_progress (film : Thin_film) (fin : istream) :
  good (snd (read_fin film fin)) = true ->
  (length (ibuf (snd (read_fin film fin))) < length (ibuf fin))%nat.
Proof.
  unfold read_fin, get_double.
  pose proof (ws_length fin) as Hw.
  pose proof (getline_progress (mat film) (ws fin)) as Hg.
  destruct (getline (mat film) (ws fin)) as [m fin2]. cbn [snd] in Hg.
  pose proof (extract_double_length fin2) as Hl.
  pose proof (extract_double_good fin2) as Hgood.
  destruct (extract_double fin2) as [v fin3]. cbn [snd] in *.
  intros H. specialize (Hg (Hgood H)). lia.
Qed.

Lemma loadData_loop_ends (fuel : nat) : forall (film : Thin_film) (fin : istream)
    (l : list Thin_film),
  (length (ibuf fin) < fuel)%nat ->
  exists l', loadData_loop fuel film fin l = Some (l ++ l').
Proof.
  induction fuel as [|fuel IH]; intros film fin l Hf; [lia|].
  cbn [loadData_loop]. destruct (good fin); [|exists []; rewrite app_nil_r; reflexivity].
  pose proof (read_fin_progress film fin) as Hp.
  destruct (read_fin film fin) as [film' fin']. cbn [snd] in Hp.
  destruct (good fin') eqn:E.
  - specialize (Hp eq_refl).
    destruct (IH film' fin' (l ++ [film']) ltac:(lia)) as [l' Hl'].
    exists (film' :: l'). rewrite Hl', <- app_assoc. reflexivity.
  - destruct fuel as [|fuel']; cbn [loadData_loop]; rewrite E;
      exists []; rewrite app_nil_r; reflexivity.
Qed.

Lemma loadData_opened (l : list Thin_film) (name : string) (w : World) (t : text) :
  files w !! name = Some t -> exists l', loadData l name w = Done (l ++ l') w.
Proof.
  intros E. unfold loadData, bind, read_file. cbv beta iota. rewrite E.
  destruct (loadData_loop_ends (S (length t)) Thin_film_default (mkIn t false false) l
              ltac:(cbn [ibuf]; lia)) as [l' Hl'].
  rewrite Hl'. exists l'. reflexivity.
Qed.

(** X1: [loadData] ends on every file: it returns the list it was given
    with records appended and changes nothing else, or, when the file
    cannot be opened, the process exits with status 1. *)
Theorem loadData_total (l : list Thin_film) (name : string) (w : World) :
  match loadData l name w with
  | Done l' w' => w' = w /\ exists l'', l' = l ++ l''
  | Exited st w' => st = 1 /\ files w !! name = None /\ files w' = files w
  | Undefined | OutOfFuel => False
  end.
Proof.
  destruct (files w !! name) as [t|] eqn:E.
  - destruct (loadData_opened l name w t E) as [l' ->].
    split; [reflexivity | exists l'; reflexivity].
  - unfold loadData, bind, read_file. cbv beta iota. rewrite E.
    cbn. repeat split; reflexivity.
Qed.

(** ** A last record without its newline *)

Lemma skip_while_nil_app (p : ascii -> bool) (x y : text) :
  skip_while p x = [] -> skip_while p (x ++ y) = skip_while p y.
Proof.
  induction x as [|a x IH]; cbn [skip_while app]; [reflexivity|].
  destruct (p a); [exact IH | discriminate].
Qed.

Lemma extract_float_loop_end (n : nat) : forall (b y : text) fm fd fs,
  (length b <= n)%nat ->
  (length (snd (extract_float_loop fm fd fs (b ++ y))) <= length y)%nat ->
  snd (extract_float_loop fm fd fs b) = [].
Proof.
  induction n as [|n IH]; intros b y fm fd fs Hn H.
  - destruct b; [reflexivity | cbn [length] in Hn; lia].
  - destruct b as [|a b]; [reflexivity|]. cbn [length] in Hn.
    cbn [extract_float_loop app] in *.
    destruct (is_digit a).
    { specialize (IH b y true fd fs ltac:(lia)).
      destruct (extract_float_loop true fd fs (b ++ y)).
      destruct (extract_float_loop true fd fs b). cbn [snd] in *. auto. }
    destruct (is_char a "." && negb fd && negb fs).
    { specialize (IH b y fm true fs ltac:(lia)).
      destruct (extract_float_loop fm true fs (b ++ y)).
      destruct (extract_float_loop fm true fs b). cbn [snd] in *. auto. }
    destruct ((is_char a "e" || is_char a "E") && negb fs && fm).
    2:{ cbn [snd length] in H. rewrite length_app in H. lia. }
    destruct b as [|a' b']; [reflexivity|]. cbn [app length] in *.
    destruct (is_char a' "+" || is_char a' "-").
    + specialize (IH b' y fm fd true ltac:(lia)).
      destruct (extract_float_loop fm fd true (b' ++ y)).
      destruct (extract_float_loop fm fd true b'). cbn [snd] in *. auto.
    + specialize (IH (a' :: b') y fm fd true ltac:(cbn [length]; lia)).
      cbn [app] in IH.
      destruct (extract_float_loop fm fd true (a' :: b' ++ y)).
      destruct (extract_float_loop fm fd true (a' :: b')). cbn [snd] in *. auto.
Qed.

Lemma extract_float_end (b y : text) :
  (length (snd (extract_float (b ++ y))) <= length y)%nat ->
  snd (extract_float b) = [].
Proof.
  unfold extract_float.
  assert (forall b1 sign sign',
    (length (snd (let b2 := skip_while (fun c => is_char c "0") (b1 ++ y) in
       let found_zero := negb (Nat.eqb (length b2) (length (b1 ++ y))) in
       let '(x, rest) := extract_float_loop found_zero false false b2 in
       (sign ++ (if found_zero then ["0"%char] else []) ++ x, rest))) <= length y)%nat ->
    snd (let b2 := skip_while (fun c => is_char c "0") b1 in
       let found_zero := negb (Nat.eqb (length b2) (length b1)) in
       let '(x, rest) := extract_float_loop found_zero false false b2 in
       (sign' ++ (if found_zero then ["0"%char] else []) ++ x, rest)) = []) as Hcore.
  { intros b1 sign sign'. cbv zeta. intros H.
    destruct (skip_while (fun c => is_char c "0") b1) as [|c2 r2] eqn:Es.
    - cbn [extract_float_loop snd]. reflexivity.
    - rewrite (skip_while_app _ b1 y c2 r2 Es) in H.
      replace (Nat.eqb (length (c2 :: r2 ++ y)) (length (b1 ++ y)))
        with (Nat.eqb (length (c2 :: r2)) (length b1)) in H.
      2:{ change (c2 :: r2 ++ y) with ((c2 :: r2) ++ y). rewrite !length_app.
          destruct (Nat.eqb_spec (length (c2 :: r2)) (length b1)) as [E|E];
            symmetry; [apply Nat.eqb_eq | apply Nat.eqb_neq]; lia. }
      change (c2 :: r2 ++ y) with ((c2 :: r2) ++ y) in H.
      pose proof (extract_float_loop_end _ (c2 :: r2) y
                    (negb (Nat.eqb (length (c2 :: r2)) (length b1))) false false
                    (Nat.le_refl _)) as Hl.
      destruct (extract_float_loop _ false false ((c2 :: r2) ++ y)).
      destruct (extract_float_loop _ false false (c2 :: r2)).
      cbn [snd] in *. auto. }
  destruct b as [|a b].
  - intros _. reflexivity.
  - cbn [app]. destruct (is_char a "+" || is_char a "-").
    + apply Hcore.
    + change (a :: b ++ y) with ((a :: b) ++ y). apply Hcore.
Qed.

(** An index line that reads whole is read to the end of the file
    when its newline is missing, which raises [eofbit]. *)
Lemma extract_double_no_newline (i : text) :
  readable_index i = true ->
  good (snd (extract_double (mkIn i false false))) = false.
Proof.
  unfold readable_index, extract_double, sentry.
  cbn [good eofbit failbit negb andb ibuf].
  destruct (skip_while isspace (i ++ [nl])) as [|c r] eqn:Es; [discriminate|].
  destruct (skip_while isspace i) as [|c' r'] eqn:Ei.
  { rewrite (skip_while_nil_app _ i [nl] Ei) in Es. discriminate. }
  rewrite (skip_while_app _ i [nl] c' r' Ei) in Es. inversion Es; subst c r.
  change (c' :: r' ++ [nl]) with ((c' :: r') ++ [nl]).
  pose proof (extract_float_end (c' :: r') [nl]) as He.
  cbn [ibuf].
  destruct (extract_float ((c' :: r') ++ [nl])) as [x rb].
  destruct (convert_to_v x) as [v fl].
  unfold at_newline. cbn [ibuf]. intros H. apply andb_prop in H as [Hb _].
  apply bool_decide_eq_true in Hb. subst rb.
  specialize (He (Nat.le_refl _)).
  destruct (extract_float (c' :: r')) as [x' rb']. cbn [snd] in He. subst rb'.
  destruct (convert_to_v x') as [v' fl']. reflexivity.
Qed.

Lemma dropped_tail_no_newline (n i : text) :
  clean_name n = true -> readable_index i = true -> dropped_tail (n ++ nl :: i).
Proof.
  intros Hn Hi film pre Hpre.
  destruct (clean_name_inv n Hn) as (c & r & -> & Hc & Hnl).
  unfold read_fin, ws, sentry. cbn [good eofbit failbit negb andb ibuf].
  rewrite skip_while_all by exact Hpre. cbn [app skip_while]. rewrite Hc. cbn [at_end].
  unfold getline, sentry. cbn [good eofbit failbit negb andb ibuf].
  change (c :: r ++ nl :: i) with ((c :: r) ++ nl :: i).
  rewrite take_while_all, skip_while_stop by (exact Hnl || reflexivity).
  unfold get_double.
  pose proof (extract_double_no_newline i Hi) as Hg.
  destruct (extract_double (mkIn i false false)) as [v s]. exact Hg.
Qed.

(** X2: a file whose last index line has no newline loses its last
    record: [loadData] returns the records before it only. *)
Theorem loadData_drops_unterminated_record (rs : list (text * text)) (n i : text)
    (l : list Thin_film) (name : string) (w : World) :
  forallb readable_record rs = true ->
  clean_name n = true -> readable_index i = true ->
  files w !! name = Some (file_of rs ++ n ++ nl :: i) ->
  loadData l name w = Done (l ++ map loaded rs) w.
Proof.
  intros Hrs Hn Hi Hf.
  apply (loadData_file rs (n ++ nl :: i)); [assumption | | assumption].
  apply dropped_tail_no_newline; assumption.
Qed.

Lemma loadData_drops_unterminated_record_witness :
  loadData [] "films.txt"
    (start "" {[ "films.txt"%string :=
                   file_of [(T "SiO2", T "1.46")] ++ T "Si3N4" ++ nl :: T "2.05" ]} ∅)
  = Done ([] ++ map loaded [(T "SiO2", T "1.46")])
      (start "" {[ "films.txt"%string :=
                     file_of [(T "SiO2", T "1.46")] ++ T "Si3N4" ++ nl :: T "2.05" ]} ∅).
Proof.
  apply (loadData_drops_unterminated_record [(T "SiO2", T "1.46")] (T "Si3N4") (T "2.05")).
  - vm_compute. reflexivity.
  - reflexivity.
  - vm_compute. reflexivity.
  - vm_compute. reflexivity.
Defined.

(** ** Saving and loading again *)

Lemma forallb_map_printed (l : list Thin_film) :
  forallb readable_record (map printed l)
    = forallb (fun f => readable_record (printed f)) l.
Proof.
  induction l as [|f l IH]; [reflexivity|]. cbn [map forallb]. rewrite IH. reflexivity.
Qed.

(** X3: after [saveData] a fresh [loadData] gives, for each record, the
    same name, the index its printed six-digit text reads as, and
    spectral range and maxima 0. *)
Theorem save_then_load (l : list Thin_film) (w : World) :
  forallb (fun f => readable_record (printed f)) l = true ->
  Z.of_nat (length l) < 2 ^ 32 ->
  "films.txt"%string ∉ readonly w ->
  bind (saveData l "films.txt") (fun _ => loadData [] "films.txt") w =
    Done (map (fun f => loaded (printed f)) l)
      (mkWorld (cin w) (cout w)
         (<["films.txt"%string := concat (map film_text l)]> (files w)) (readonly w)).
Proof.
  intros Hr Hlen Hro. rewrite <- library_text_concat.
  unfold bind at 1. unfold saveData, bind, can_write, counted, write_file.
  rewrite bool_decide_eq_false_2 by exact Hro. cbn [negb].
  destruct (2 ^ 32 <=? Z.of_nat (length l)) eqn:E; [apply Z.leb_le in E; lia|].
  rewrite (loadData_file (map printed l) [] [] "films.txt").
  - rewrite map_map. reflexivity.
  - rewrite forallb_map_printed. exact Hr.
  - apply dropped_tail_nil.
  - cbn [files]. rewrite lookup_insert_eq, app_nil_r, library_text_printed. reflexivity.
Qed.

Lemma save_then_load_witness :
  bind (saveData [mkFilm (T "TiO2") 50%float 2.4567891%float 3%float] "films.txt")
       (fun _ => loadData [] "films.txt") (start "" ∅ ∅) =
    Done (map (fun f => loaded (printed f)) [mkFilm (T "TiO2") 50%float 2.4567891%float 3%float])
      (mkWorld (cin (start "" ∅ ∅)) (cout (start "" ∅ ∅))
         (<["films.txt"%string :=
              concat (map film_text [mkFilm (T "TiO2") 50%float 2.4567891%float 3%float])]>
            (files (start "" ∅ ∅))) (readonly (start "" ∅ ∅))).
Proof.
  apply save_then_load.
  - vm_compute. reflexivity.
  - reflexivity.
  - unfold start. cbn [readonly]. apply not_elem_of_empty.
Defined.

(** ** DELETE with a position outside the library *)

Lemma get_int_range (n : Z) (s : istream) :
  INT_MIN <= n <= INT_MAX -> INT_MIN <= fst (get_int n s) <= INT_MAX.
Proof.
  intros Hn. unfold get_int. destruct (sentry false s) as [[|] s1]; [|exact Hn].
  destruct (extract_long (ibuf s1)) as [[v fl] rest].
  destruct (Z.ltb_spec v INT_MIN); [cbn; unfold INT_MIN, INT_MAX; lia|].
  destruct (Z.ltb_spec INT_MAX v); cbn; unfold INT_MIN, INT_MAX in *; lia.
Qed.

(** X4: on a library that is not empty, DELETE with a position below 1
    or above the size removes the last record and rewrites the file
    without it. *)
Theorem deleteFilm_outside_removes_last (l : list Thin_film) (w : World) (k : Z)
    (s : istream) :
  get_int 0 (cin w) = (k, s) ->
  k <> INT_MIN ->
  k < 1 \/ Z.of_nat (length l) < k ->
  0 < Z.of_nat (length l) <= 2 ^ 31 ->
  "films.txt"%string ∉ readonly w ->
  deleteFilm l w =
    Done (removelast l)
      (mkWorld s (getFilmIndex_output l (cout w))
         (<["films.txt"%string := concat (map film_text (removelast l))]> (files w))
         (readonly w)).
Proof.
  intros Hk Hmin Hout Hlen Hro. rewrite <- library_text_concat.
  pose proof (get_int_range 0 (cin w) ltac:(unfold INT_MIN, INT_MAX; lia)) as Hr.
  rewrite Hk in Hr. cbn [fst] in Hr. unfold INT_MIN, INT_MAX in *.
  change (2 ^ 31) with 2147483648 in *.
  unfold deleteFilm, bind.
  rewrite (getFilmIndex_reads l w k s ltac:(change (2 ^ 32) with 4294967296; lia) Hk).
  destruct (Z.eqb_spec k INT_MIN) as [E|_]; [unfold INT_MIN in E; contradiction|].
  assert (Z.of_nat (length l) - 1 <= (k - 1) mod 2 ^ 32) as Hi.
  { destruct Hout as [Hlow|Hhigh].
    - rewrite <- (Z_mod_plus_full (k - 1) 1 (2 ^ 32)).
      rewrite Z.mod_small; change (2 ^ 32) with 4294967296; lia.
    - rewrite Z.mod_small; change (2 ^ 32) with 4294967296; lia. }
  cbn [deleteFilm_loop].
  assert ((Z.of_nat (length l) - 1) mod 2 ^ 64 = Z.of_nat (length l) - 1) as Hb.
  { rewrite Z.mod_small; [lia|]. change (2 ^ 64) with 18446744073709551616. lia. }
  rewrite Hb.
  destruct (Z.ltb_spec ((k - 1) mod 2 ^ 32) (Z.of_nat (length l) - 1)) as [Hlt|_]; [lia|].
  destruct l as [|f l]; [cbn [length] in Hlen; lia|].
  cbn [pop_back].
  unfold saveData, bind, can_write, counted, write_file, ret.
  cbn [cin cout files readonly].
  rewrite bool_decide_eq_false_2 by exact Hro. cbn [negb].
  destruct (Z.leb_spec (2 ^ 32) (Z.of_nat (length (removelast (f :: l))))) as [Hbig|_].
  { exfalso. change (2 ^ 32) with 4294967296 in Hbig.
    assert (length (removelast (f :: l)) <= length (f :: l))%nat.
    { generalize (f :: l). intros v. induction v as [|a [|b v] IH]; cbn [removelast length] in *; lia. }
    lia. }
  reflexivity.
Qed.

Lemma deleteFilm_outside_removes_last_witness :
  deleteFilm [SiO2; Si3N4] (start "0" library_file ∅) =
    Done (removelast [SiO2; Si3N4])
      (mkWorld (mkIn [] true false)
         (getFilmIndex_output [SiO2; Si3N4] (cout (start "0" library_file ∅)))
         (<["films.txt"%string := concat (map film_text (removelast [SiO2; Si3N4]))]>
            (files (start "0" library_file ∅)))
         (readonly (start "0" library_file ∅))).
Proof.
  apply (deleteFilm_outside_removes_last [SiO2; Si3N4] (start "0" library_file ∅) 0).
  - vm_compute. reflexivity.
  - unfold INT_MIN. lia.
  - left. lia.
  - cbn [length]. split; [lia | discriminate].
  - unfold start. cbn [readonly]. apply not_elem_of_empty.
Defined.

(** ** End of the console input *)

Lemma sentry_exhausted (s : istream) :
  exhausted s ->
  fst (sentry false s) = false /\ good (snd (sentry false s)) = false.
Proof.
  unfold sentry. destruct (good s) eqn:E.
  - intros [H|H]; [congruence|]. rewrite H. cbn. split; reflexivity.
  - intros _. cbn [fst snd]. unfold good, setstate. cbn [eofbit failbit].
    rewrite orb_true_r, andb_false_r. split; reflexivity.
Qed.

Lemma get_int_exhausted (n : Z) (s : istream) :
  exhausted s -> fst (get_int n s) = n /\ good (snd (get_int n s)) = false.
Proof.
  intros H. destruct (sentry_exhausted s H) as [H1 H2]. unfold get_int.
  destruct (sentry false s) as [ok s1]. cbn [fst snd] in *. subst ok.
  split; [reflexivity | exact H2].
Qed.

Lemma get_string_exhausted (str : text) (s : istream) :
  exhausted s -> fst (get_string str s) = str /\ good (snd (get_string str s)) = false.
Proof.
  intros H. destruct (sentry_exhausted s H) as [H1 H2]. unfold get_string.
  destruct (sentry false s) as [ok s1]. cbn [fst snd] in *. subst ok.
  split; [reflexivity | exact H2].
Qed.

Lemma listFilms_runs (l : list Thin_film) (w : World) :
  Z.of_nat (length l) < 2 ^ 32 ->
  listFilms l w = Done tt (after w (cin w) (listFilms_output l (cout w))).
Proof.
  intros Hlen. unfold listFilms, bind, out, counted. cbn [cin cout files readonly].
  destruct (2 ^ 32 <=? Z.of_nat (length l)) eqn:E; [apply Z.leb_le in E; lia|].
  reflexivity.
Qed.

(** X5: when the console input has ended at the menu, the program does
    not stop: with CALCULATE as the last choice it indexes the vector
    at -1, with LIST as the last choice it prints the library for
    ever. *)
Theorem menu_after_end_of_input (l : list Thin_film) (w : World) :
  exhausted (cin w) ->
  Z.of_nat (length l) < 2 ^ 32 ->
  (forall fuel : nat, main_loop (S (S fuel)) CAL_THICKNESS l w = Undefined) /\
  (forall fuel : nat, main_loop fuel MATERIAL_LIST l w = OutOfFuel).
Proof.
  intros Hex Hlen. split.
  - intros fuel. cbn [main_loop]. change (CAL_THICKNESS =? 0) with false. cbv iota.
    unfold bind at 1. unfold out at 1. unfold bind at 1. unfold inp at 1.
    cbn [cin cout files readonly].
    destruct (get_int_exhausted CAL_THICKNESS (cin w) Hex) as [H1 H2].
    destruct (get_int CAL_THICKNESS (cin w)) as [c s1]. cbn [fst snd] in *. subst c.
    change (CAL_THICKNESS =? CAL_THICKNESS) with true. cbv iota.
    unfold bind at 1. unfold calculateThickness. cbn [calculateThickness_loop].
    change (text_eqb (T "y") "y") with true. cbv iota.
    unfold bind at 1. unfold out at 1. unfold bind at 1. unfold inp at 1.
    cbn [cin cout files readonly].
    destruct (get_string_exhausted (T "y") s1 (or_introl H2)) as [H3 H4].
    destruct (get_string (T "y") s1) as [a s2]. cbn [fst snd] in *. subst a.
    change (text_eqb (T "y") "y") with true. cbv iota.
    unfold bind at 1. unfold bind at 1.
    destruct (get_int_exhausted 0 s2 (or_introl H4)) as [H5 H6].
    destruct (get_int 0 s2) as [k s3] eqn:Hk. cbn [fst snd] in *. subst k.
    rewrite (getFilmIndex_reads l _ 0 s3 Hlen) by (cbn [cin]; exact Hk).
    reflexivity.
  - intros fuel. revert w Hex. induction fuel as [|fuel IH]; intros w Hex; [reflexivity|].
    cbn [main_loop]. change (MATERIAL_LIST =? 0) with false. cbv iota.
    unfold bind at 1. unfold out at 1. unfold bind at 1. unfold inp at 1.
    cbn [cin cout files readonly].
    destruct (get_int_exhausted MATERIAL_LIST (cin w) Hex) as [H1 H2].
    destruct (get_int MATERIAL_LIST (cin w)) as [c s1]. cbn [fst snd] in *. subst c.
    change (MATERIAL_LIST =? CAL_THICKNESS) with false.
    change (MATERIAL_LIST =? MATERIAL_LIST) with true. cbv iota.
    unfold bind at 1. unfold bind at 1. rewrite (listFilms_runs l _ Hlen).
    unfold ret. apply IH. cbn [after cin]. left. exact H2.
Qed.

Lemma menu_after_end_of_input_witness :
  (forall fuel : nat,
     main_loop (S (S fuel)) CAL_THICKNESS [SiO2] (start "" library_file ∅) = Undefined) /\
  (forall fuel : nat,
     main_loop fuel MATERIAL_LIST [SiO2] (start "" library_file ∅) = OutOfFuel).
Proof.
  apply (menu_after_end_of_input [SiO2] (start "" library_file ∅)).
  - right. reflexivity.
  - reflexivity.
Defined.

(** ** A measurement from the library *)

(** X6: a CALCULATE from a valid library position, with nothing saved
    and no further film, prints the row for the record with the
    clamped spectral range and maxima, returns the list with a copy of
    the library record appended, and leaves every file as it was.
    Stated for a thickness that is a number: the text of a NaN depends
    on its sign bit, which a Rocq float does not carry. *)
Theorem calculate_from_library (fuel : nat) (l : list Thin_film) (w : World)
    (p : Z) (film : Thin_film) (d m : float) (a r : text)
    (s1 s2 s3 s4 s5 s6 : istream) :
  get_string (T "y") (cin w) = (T "y", s1) ->
  get_int 0 s1 = (p, s2) ->
  at_index l (p - 1) = Some film ->
  Z.of_nat (length l) < 2 ^ 32 ->
  extract_double s2 = (Some d, s3) ->
  extract_double s3 = (Some m, s4) ->
  get_string (T "n") s4 = (a, s5) -> text_eqb a "y" = false ->
  get_string (T "y") s5 = (r, s6) -> text_eqb r "y" = false ->
  is_nan (getThickness (setnumberOfMaxima m (setspectralRange d film))) = false ->
  calculateThickness (S fuel) l w =
    Done (l ++ [film])
      (mkWorld s6
         (measurement_output l (setnumberOfMaxima m (setspectralRange d film)) (cout w))
         (files w) (readonly w)).
Proof.
  intros Hy Hp Hat Hlen Hd Hm Ha Han Hr Hrn _.
  assert (p <> INT_MIN) as Hmin.
  { unfold at_index in Hat. destruct (Z.ltb_spec (p - 1) 0); [discriminate|].
    unfold INT_MIN. lia. }
  unfold calculateThickness. cbn [calculateThickness_loop].
  change (text_eqb (T "y") "y") with true. cbv iota.
  unfold bind at 1. unfold out at 1. unfold bind at 1. unfold inp at 1.
  cbn [cin cout files readonly]. rewrite Hy.
  change (text_eqb (T "y") "y") with true. cbv iota.
  unfold bind at 1. unfold bind at 1.
  rewrite (getFilmIndex_reads l _ p s2 Hlen) by (cbn [cin]; exact Hp).
  destruct (Z.eqb_spec p INT_MIN) as [|_]; [contradiction|].
  rewrite Hat.
  unfold bind at 1. unfold out at 1. unfold bind at 1. unfold inp_double_uninit at 1.
  cbn [after cin cout files readonly]. rewrite Hd.
  unfold bind at 1. unfold out at 1. unfold bind at 1. unfold inp_double_uninit at 1.
  cbn [cin cout files readonly]. rewrite Hm.
  unfold bind at 1. unfold out at 1. unfold bind at 1.
  unfold writeMeasResultFile. unfold bind at 1. unfold out at 1.
  unfold bind at 1. unfold inp at 1.
  cbn [cin cout files readonly]. rewrite Ha, Han.
  unfold ret at 1. unfold ret at 1.
  unfold bind at 1. unfold out at 1. unfold bind at 1. unfold inp at 1.
  cbn [cin cout files readonly]. rewrite Hr.
  destruct fuel; cbn [calculateThickness_loop]; rewrite Hrn; reflexivity.
Qed.

Lemma calculate_from_library_witness :
  calculateThickness 1 [SiO2; Si3N4] (start "y 2 -50 3 n n" library_file ∅) =
    Done ([SiO2; Si3N4] ++ [Si3N4])
      (mkWorld (mkIn [] true false)
         (measurement_output [SiO2; Si3N4]
            (setnumberOfMaxima 3%float (setspectralRange (-50)%float Si3N4))
            (cout (start "y 2 -50 3 n n" library_file ∅)))
         (files (start "y 2 -50 3 n n" library_file ∅))
         (readonly (start "y 2 -50 3 n n" library_file ∅))).
Proof.
  apply (calculate_from_library 0%nat [SiO2; Si3N4] (start "y 2 -50 3 n n" library_file ∅)
           2 Si3N4 (-50)%float 3%float (T "n") (T "n")
           (mkIn (T " 2 -50 3 n n") false false) (mkIn (T " -50 3 n n") false false)
           (mkIn (T " 3 n n") false false) (mkIn (T " n n") false false)
           (mkIn (T " n") false false) (mkIn [] true false));
    vm_compute; reflexivity.
Defined.

(** ** More on the record *)

(** X7: a setter never stores a negative value, and changes only its
    own field. *)
Theorem setters_never_negative (v : float) (f : Thin_film) :
  ((index (setIndex v f) <? 0)%float = false /\
   (spectralRange (setspectralRange v f) <? 0)%float = false /\
   (numberOfMaxima (setnumberOfMaxima v f) <? 0)%float = false) /\
  (setIndex v f = mkFilm (mat f) (spectralRange f) (index (setIndex v f)) (numberOfMaxima f) /\
   setspectralRange v f =
     mkFilm (mat f) (spectralRange (setspectralRange v f)) (index f) (numberOfMaxima f) /\
   setnumberOfMaxima v f =
     mkFilm (mat f) (spectralRange f) (index f) (numberOfMaxima (setnumberOfMaxima v f))).
Proof.
  unfold setIndex, setspectralRange, setnumberOfMaxima.
  destruct (v <? 0)%float eqn:E; cbn [index spectralRange numberOfMaxima mat];
    repeat split; try assumption; reflexivity.
Qed.

Lemma mul_opp_opp (x : float) : ((- x) * (- x))%float = (x * x)%float.
Proof.
  apply Prim2SF_inj. rewrite !mul_spec, opp_spec.
  destruct (Prim2SF x) as [s|s| |s m e]; try destruct s; reflexivity.
Qed.

(** X8: the thickness depends on the index through its square only: a
    record with index [-n] has the thickness of the record with index
    [n]. *)
Theorem getThickness_index_sign (n : text) (d i m : float) :
  getThickness (mkFilm n d (- i)%float m) = getThickness (mkFilm n d i m).
Proof.
  unfold getThickness. cbn [index spectralRange numberOfMaxima].
  rewrite mul_opp_opp. reflexivity.
Qed.

(** ** Writing files *)

(** X9: [saveData] either rewrites the named file with the two lines of
    every record, in order, and touches nothing else, or, when the
    file cannot be opened, prints the message and exits with status
    255 leaving the files as they were. *)
Theorem saveData_effect (l : list Thin_film) (name : string) (w : World) :
  match saveData l name w with
  | Done _ w' =>
      (name ∉ readonly w) /\
      w' = mkWorld (cin w) (cout w)
             (<[name := concat (map film_text l)]> (files w)) (readonly w)
  | Exited st w' =>
      (name ∈ readonly w) /\ st = 255 /\ files w' = files w /\
      cout w' = puts "Output file failed to open.
" (cout w)
  | Undefined => False
  | OutOfFuel => 2 ^ 32 <= Z.of_nat (length l)
  end.
Proof.
  unfold saveData, bind, can_write, counted, write_file, open_failed, out, exit.
  cbn [cin cout files readonly].
  destruct (bool_decide (name ∈ readonly w)) eqn:E; cbn [negb].
  - apply bool_decide_eq_true in E. repeat split; assumption || reflexivity.
  - apply bool_decide_eq_false in E.
    destruct (Z.leb_spec (2 ^ 32) (Z.of_nat (length l))) as [H|H]; [exact H|].
    rewrite library_text_concat. split; [exact E | reflexivity].
Qed.

(** X10: the line of the measurement log, for a thickness that is a
    number: the name in 30 columns on the left, the index with 2
    decimals in 10 columns on the right, the thickness with 1 decimal
    in 15 columns on the right, a newline. *)
Theorem meas_line_format (f : Thin_film) :
  is_nan (getThickness f) = false ->
  let i2 := fmt_fixed 2 (index f) in
  let t1 := fmt_fixed 1 (getThickness f) in
  meas_line f =
    mat f ++ repeat " "%char (30 - length (mat f))
      ++ repeat " "%char (10 - length i2) ++ i2
      ++ repeat " "%char (15 - length t1) ++ t1 ++ [nl].
Proof.
  intros _. cbv zeta. unfold meas_line, put_double, fmt_double, put, padding, endl.
  cbn [obuf fixed precision width adjust_left setf_fixed setw setprecision left right
       ostream_init app].
  change (Z.to_nat MATERIAL_WIDTH) with 30%nat.
  change (Z.to_nat INDEX_WIDTH) with 10%nat.
  change (Z.to_nat MAXIMA_WIDTH) with 15%nat.
  rewrite <- !app_assoc. reflexivity.
Qed.

Lemma meas_line_format_witness :
  meas_line (setnumberOfMaxima 3%float (setspectralRange 50%float Si3N4))
    = T "Si3N4                               2.05          134.2
".
Proof.
  refine (eq_trans
    (meas_line_format (setnumberOfMaxima 3%float (setspectralRange 50%float Si3N4)) _) _);
    vm_compute; reflexivity.
Defined.

(** X11: [writeMeasResultFile] never rewrites a file: when the answer is
    [y] it appends the one line to the named file, otherwise the files
    are as before; when the file cannot be opened the process exits
    with status 255.  Stated for a thickness that is a number. *)
Theorem writeMeasResultFile_effect (f : Thin_film) (name : string) (w : World) :
  is_nan (getThickness f) = false ->
  let '(a, s) := get_string (T "n") (cin w) in
  let o := cout w |> puts "Would you like to save this measurement result (y/n)? " in
  writeMeasResultFile f name w =
    if text_eqb a "y" then
      if bool_decide (name ∈ readonly w) then
        Exited 255 (after w s (o |> puts "Output file failed to open.
"))
      else
        Done tt (mkWorld s o
                   (<[name := default [] (files w !! name) ++ meas_line f]> (files w))
                   (readonly w))
    else Done tt (after w s o).
Proof.
  intros _. unfold writeMeasResultFile, bind, out, inp. cbn [cin cout files readonly].
  destruct (get_string (T "n") (cin w)) as [a s]. cbn [cin cout files readonly].
  destruct (text_eqb a "y"); [|reflexivity].
  unfold can_write, open_failed, append_file, bind, out, exit.
  cbn [cin cout files readonly].
  destruct (bool_decide (name ∈ readonly w)); reflexivity.
Qed.

Lemma writeMeasResultFile_effect_witness :
  writeMeasResultFile (setnumberOfMaxima 3%float (setspectralRange 50%float Si3N4))
    "data.txt" (start "y" {[ "data.txt"%string := T "earlier line
" ]} ∅)
  = Done tt
      (mkWorld (mkIn [] true false)
         (ostream_init |> puts "Would you like to save this measurement result (y/n)? ")
         {[ "data.txt"%string := T "earlier line
Si3N4                               2.05          134.2
" ]} ∅).
Proof.
  refine (eq_trans
    (writeMeasResultFile_effect (setnumberOfMaxima 3%float (setspectralRange 50%float Si3N4))
       "data.txt" (start "y" {[ "data.txt"%string := T "earlier line
" ]} ∅) _) _);
    vm_compute; reflexivity.
Defined.

(** ** The program *)

Lemma loadData_missing (l : list Thin_film) (name : string) (w : World) :
  files w !! name = None ->
  loadData l name w =
    Exited 1 (after w (cin w)
                (cout w |> puts "File " |> puts name |> puts " failed to open.
")).
Proof.
  intros Hf. unfold loadData, bind, read_file. cbv beta iota. rewrite Hf. reflexivity.
Qed.

(** X12: with a library file that opens, choosing 0 at the first menu
    ends the program with status 0 after the banner, one menu and the
    farewell, and changes no file; without a library file the program
    exits with status 1 before any menu. *)
Theorem main_exit (fuel : nat) (w : World) :
  (forall (t : text) (s : istream),
      files w !! "films.txt"%string = Some t ->
      get_int 1 (cin w) = (EXIT, s) ->
      main (S fuel) w =
        Done 0 (after w s (cout w |> endl |> puts "Thin Film Calculator
" |> menu |> puts "
Goodbye!
"))) /\
  (files w !! "films.txt"%string = None ->
   main fuel w =
     Exited 1 (after w (cin w)
                 (cout w |> puts "File " |> puts "films.txt" |> puts " failed to open.
"))).
Proof.
  split.
  - intros t s Hf Hc.
    destruct (loadData_opened [] "films.txt" w t Hf) as [l Hl].
    unfold main. unfold bind at 1. rewrite Hl.
    unfold bind at 1. unfold out at 1. unfold bind at 1.
    cbn [main_loop]. change (1 =? 0) with false. cbv iota.
    unfold bind at 1. unfold out at 1. unfold bind at 1. unfold inp at 1.
    cbn [cin cout files readonly]. rewrite Hc.
    change (EXIT =? CAL_THICKNESS) with false. change (EXIT =? MATERIAL_LIST) with false.
    change (EXIT =? ADD_MATERIAL) with false. change (EXIT =? DEL_MATERIAL) with false.
    cbv iota. unfold bind at 1. unfold ret at 1.
    destruct fuel; cbn [main_loop]; change (EXIT =? 0) with true; reflexivity.
  - intros Hf. unfold main. unfold bind at 1.
    rewrite (loadData_missing [] "films.txt" w Hf). reflexivity.
Qed.

Lemma main_exit_witness :
  main 1 (start "0" library_file ∅) =
    Done 0 (after (start "0" library_file ∅) (mkIn [] true false)
              (cout (start "0" library_file ∅) |> endl |> puts "Thin Film Calculator
" |> menu |> puts "
Goodbye!
")).
Proof.
  apply (proj1 (main_exit 0%nat (start "0" library_file ∅))
           (T "SiO2
1.46
Si3N4
2.05
")); vm_compute; reflexivity.
Defined.

(** ** Reading a film from the console *)

Lemma read_runs (f : Thin_film) (w : World) :
  read f w =
    Done (fst (read_input f (cin w)))
      (after w (snd (read_input f (cin w))) (read_output (cout w))).
Proof.
  unfold read, read_input, bind, out, inp. cbn [cin cout files readonly].
  destruct (getline (mat f) (ws (cin w))) as [m s2]. cbn [cin cout files readonly].
  destruct (get_double (index f) s2) as [i s3]. cbn [cin cout files readonly].
  destruct (get_double (spectralRange f) s3) as [r s4]. cbn [cin cout files readonly].
  destruct (get_double (numberOfMaxima f) s4) as [n s5]. reflexivity.
Qed.

Lemma ws_exhausted (s : istream) : exhausted s -> good (ws s) = false.
Proof.
  unfold ws, sentry. destruct (good s) eqn:E.
  - intros [H|H]; [congruence|]. rewrite H. reflexivity.
  - intros _. unfold good, setstate. cbn [eofbit failbit].
    rewrite orb_true_r, andb_false_r. reflexivity.
Qed.

Lemma getline_not_good (str : text) (s : istream) :
  good s = false ->
  fst (getline str s) = str /\ good (snd (getline str s)) = false.
Proof.
  intros H. unfold getline, sentry. rewrite H. cbn [fst snd].
  unfold good, setstate. cbn [eofbit failbit].
  rewrite orb_true_r, andb_false_r. split; reflexivity.
Qed.

Lemma get_double_not_good (x : float) (s : istream) :
  good s = false ->
  fst (get_double x s) = x /\ good (snd (get_double x s)) = false.
Proof.
  intros H. unfold get_double, extract_double, sentry. rewrite H. cbn [fst snd].
  unfold good, setstate. cbn [eofbit failbit].
  rewrite orb_true_r, andb_false_r. split; reflexivity.
Qed.

(** X13: when the console input has ended, [read()] changes no field of
    the record: it prints its four prompts and returns the record it
    was given. *)
Theorem read_after_end_of_input (f : Thin_film) (w : World) :
  exhausted (cin w) ->
  exists s, read f w = Done f (after w s (read_output (cout w))) /\ good s = false.
Proof.
  intros Hex. rewrite read_runs. unfold read_input.
  pose proof (ws_exhausted (cin w) Hex) as H0.
  destruct (getline_not_good (mat f) (ws (cin w)) H0) as [Hm H1].
  destruct (getline (mat f) (ws (cin w))) as [m s2]. cbn [fst snd] in *. subst m.
  destruct (get_double_not_good (index f) s2 H1) as [Hi H2].
  destruct (get_double (index f) s2) as [i s3]. cbn [fst snd] in *. subst i.
  destruct (get_double_not_good (spectralRange f) s3 H2) as [Hr H3].
  destruct (get_double (spectralRange f) s3) as [r s4]. cbn [fst snd] in *. subst r.
  destruct (get_double_not_good (numberOfMaxima f) s4 H3) as [Hn H4].
  destruct (get_double (numberOfMaxima f) s4) as [n s5]. cbn [fst snd] in *. subst n.
  exists s5. split; [destruct f; reflexivity | exact H4].
Qed.

Lemma read_after_end_of_input_witness :
  exists s,
    read SiO2 (start "" ∅ ∅) = Done SiO2 (after (start "" ∅ ∅) s (read_output (cout (start "" ∅ ∅))))
    /\ good s = false.
Proof.
  apply (read_after_end_of_input SiO2 (start "" ∅ ∅)). right. reflexivity.
Defined.

(** X14: a film typed in for a measurement and saved: the record holds
    the four values as they were read (nothing is clamped), the list
    returned has it appended, and [films.txt] is rewritten from that
    whole list: the name line and index line of every record, in
    order.  Stated for a thickness that is a number. *)
Theorem calculate_typed_film_saved (fuel : nat) (l : list Thin_film) (w : World)
    (a0 a2 r : text) (unknown : Thin_film) (s1 s2 s3 s4 s5 : istream) :
  get_string (T "y") (cin w) = (a0, s1) -> text_eqb a0 "y" = false ->
  read_input Thin_film_default s1 = (unknown, s2) ->
  get_string (T "y") s2 = (T "y", s3) ->
  get_string (T "n") s3 = (a2, s4) -> text_eqb a2 "y" = false ->
  get_string (T "y") s4 = (r, s5) -> text_eqb r "y" = false ->
  Z.of_nat (length l) + 1 < 2 ^ 32 ->
  "films.txt"%string ∉ readonly w ->
  is_nan (getThickness unknown) = false ->
  calculateThickness (S fuel) l w =
    Done (l ++ [unknown])
      (mkWorld s5 (typed_output unknown (cout w))
         (<["films.txt"%string := concat (map film_text (l ++ [unknown]))]> (files w))
         (readonly w)).
Proof.
  intros H0 Hn0 Hread Hsave H2 Hn2 Hr Hnr Hlen Hro _. rewrite <- library_text_concat.
  unfold calculateThickness. cbn [calculateThickness_loop].
  change (text_eqb (T "y") "y") with true. cbv iota.
  unfold bind, out, inp. cbn [cin cout files readonly]. rewrite H0, Hn0.
  rewrite read_runs. cbn [after cin cout files readonly]. rewrite Hread.
  cbn [fst snd cin cout files readonly]. rewrite Hsave.
  change (text_eqb (T "y") "y") with true. cbv iota.
  unfold saveData, bind, can_write, counted, write_file.
  cbn [cin cout files readonly].
  rewrite bool_decide_eq_false_2 by exact Hro. cbn [negb].
  destruct (Z.leb_spec (2 ^ 32) (Z.of_nat (length (l ++ [unknown])))) as [Hbig|_].
  { rewrite length_app in Hbig. cbn [length] in Hbig. lia. }
  unfold writeMeasResultFile, bind, out, inp. cbn [cin cout files readonly].
  rewrite H2, Hn2. unfold ret. cbn [cin cout files readonly]. rewrite Hr.
  destruct fuel; cbn [calculateThickness_loop]; rewrite Hnr; reflexivity.
Qed.

Lemma calculate_typed_film_saved_witness :
  calculateThickness 1 [SiO2] (start "n
X
-1.5 -50 -3 y n n" library_file ∅) =
    Done ([SiO2] ++ [mkFilm (T "X") (-50)%float (-1.5)%float (-3)%float])
      (mkWorld (mkIn [] true false)
         (typed_output (mkFilm (T "X") (-50)%float (-1.5)%float (-3)%float)
            (cout (start "" library_file ∅)))
         (<["films.txt"%string :=
              concat (map film_text
                        ([SiO2] ++ [mkFilm (T "X") (-50)%float (-1.5)%float (-3)%float]))]>
            (files (start "" library_file ∅)))
         (readonly (start "" library_file ∅))).
Proof.
  apply (calculate_typed_film_saved 0%nat [SiO2] (start "n
X
-1.5 -50 -3 y n n" library_file ∅) (T "n") (T "n") (T "n")
           (mkFilm (T "X") (-50)%float (-1.5)%float (-3)%float)
           (mkIn (T "
X
-1.5 -50 -3 y n n") false false) (mkIn (T " y n n") false false)
           (mkIn (T " n n") false false) (mkIn (T " n") false false)
           (mkIn [] true false));
    try (vm_compute; reflexivity).
  unfold start. cbn [readonly]. apply not_elem_of_empty.
Defined.

(** ** [readFile] *)

Lemma readFilm_progress (film : Thin_film) (fin : istream) :
  good (snd (readFilm film fin)) = true ->
  (length (ibuf (snd (readFilm film fin))) < length (ibuf fin))%nat.
Proof.
  unfold readFilm, get_double.
  pose proof (ws_length fin) as Hw.
  pose proof (getline_progress (mat film) (ws fin)) as Hg.
  destruct (getline (mat film) (ws fin)) as [m fin2]. cbn [snd] in Hg.
  pose proof (extract_double_length fin2) as Hl2.
  pose proof (extract_double_good fin2) as Hg2.
  destruct (extract_double fin2) as [v2 fin3]. cbn [snd] in *.
  pose proof (extract_double_length fin3) as Hl3.
  pose proof (extract_double_good fin3) as Hg3.
  destruct (extract_double fin3) as [v3 fin4]. cbn [snd] in *.
  pose proof (extract_double_length fin4) as Hl4.
  pose proof (extract_double_good fin4) as Hg4.
  destruct (extract_double fin4) as [v4 fin5]. cbn [snd] in *.
  intros H. specialize (Hg (Hg2 (Hg3 (Hg4 H)))). lia.
Qed.

Lemma readFile_loop_ends (fuel : nat) : forall (fin : istream) (l : list Thin_film),
  (length (ibuf fin) < fuel)%nat ->
  exists l', readFile_loop fuel fin l = Some (l ++ l').
Proof.
  induction fuel as [|fuel IH]; intros fin l Hf; [lia|].
  cbn [readFile_loop]. destruct (good fin); [|exists []; rewrite app_nil_r; reflexivity].
  pose proof (readFilm_progress Thin_film_default fin) as Hp.
  destruct (readFilm Thin_film_default fin) as [temp fin']. cbn [snd] in Hp.
  destruct (good fin') eqn:E.
  - specialize (Hp eq_refl).
    destruct (IH fin' (l ++ [temp]) ltac:(lia)) as [l' Hl'].
    exists (temp :: l'). rewrite Hl', <- app_assoc. reflexivity.
  - destruct fuel as [|fuel']; cbn [readFile_loop]; rewrite E;
      exists []; rewrite app_nil_r; reflexivity.
Qed.

(** X15: [readFile] ends on every file: it returns the list it was given
    with records appended and changes nothing else, or, when the file
    cannot be opened, the process exits with status 255. *)
Theorem readFile_total (l : list Thin_film) (films : string) (w : World) :
  match readFile l films w with
  | Done l' w' => w' = w /\ exists l'', l' = l ++ l''
  | Exited st w' => st = 255 /\ files w !! films = None /\ files w' = files w
  | Undefined | OutOfFuel => False
  end.
Proof.
  unfold readFile, bind, read_file. cbv beta iota.
  destruct (files w !! films) as [t|] eqn:E.
  - destruct (readFile_loop_ends (S (length t)) (mkIn t false false) l
                ltac:(cbn [ibuf]; lia)) as [l' Hl'].
    rewrite Hl'. cbn. split; [reflexivity | exists l'; reflexivity].
  - cbn. repeat split; reflexivity.
Qed.

(** ** The table of LIST *)

Lemma printLib_row (f : Thin_film) (o : ostream) :
  obuf (printLib f o) =
    obuf o ++ mat f ++ repeat " "%char (30 - length (mat f)) ++
    repeat " "%char (10 - length (fmt_fixed 2 (index f))) ++ fmt_fixed 2 (index f) ++ [nl].
Proof.
  unfold printLib, put_double, fmt_double, put, padding, endl.
  cbn [obuf fixed precision width adjust_left setf_fixed setw setprecision left right].
  change (Z.to_nat MATERIAL_WIDTH) with 30%nat.
  change (Z.to_nat INDEX_WIDTH) with 10%nat.
  rewrite <- !app_assoc. reflexivity.
Qed.

Lemma listFilms_rows_text (l : list Thin_film) : forall (num : Z) (o : ostream),
  obuf (listFilms_rows num l o) = obuf o ++ list_rows num l.
Proof.
  induction l as [|f l IH]; intros num o; cbn [listFilms_rows list_rows].
  - rewrite app_nil_r. reflexivity.
  - rewrite IH, printLib_row. unfold puts, put_int, put, padding, list_row.
    cbn [obuf fixed precision width adjust_left setw right].
    change (Z.to_nat 2) with 2%nat. change (Z.to_nat 0) with 0%nat.
    cbn [Nat.sub repeat app T list_ascii_of_string length].
    rewrite <- !app_assoc. cbn [app]. rewrite <- !app_assoc. reflexivity.
Qed.

(** X16: LIST prints its two header lines and then one row per record,
    in order and numbered from 1, whatever the formatting state of the
    console was left in; for an empty library it prints the header
    only.  It reads nothing and changes no file. *)
Theorem listFilms_table (l : list Thin_film) (w : World) :
  Z.of_nat (length l) < 2 ^ 32 ->
  exists o,
    listFilms l w = Done tt (after w (cin w) o) /\
    obuf o = obuf (cout w |> puts "
THIN FILM LIBRARY
" |> setw MATERIAL_WIDTH |> left |> puts "Material"
            |> setw (INDEX_WIDTH + 4) |> right |> puts "Index" |> endl)
             ++ list_rows 0 l.
Proof.
  intros Hlen. exists (listFilms_output l (cout w)). split.
  - apply listFilms_runs. exact Hlen.
  - unfold listFilms_output. rewrite listFilms_rows_text. reflexivity.
Qed.

Lemma listFilms_table_witness :
  exists o,
    listFilms [] (start "" ∅ ∅) = Done tt (after (start "" ∅ ∅) (cin (start "" ∅ ∅)) o) /\
    obuf o = obuf (cout (start "" ∅ ∅) |> puts "
THIN FILM LIBRARY
" |> setw MATERIAL_WIDTH |> left |> puts "Material"
            |> setw (INDEX_WIDTH + 4) |> right |> puts "Index" |> endl)
             ++ list_rows 0 [].
Proof.
  apply (listFilms_table [] (start "" ∅ ∅)). reflexivity.
Defined.

(** ** ADD, then a restart *)

Lemma addMaterial_saved (w : World) (m a : text) (i : float) (s : istream) :
  addMaterial_input (cin w) = (m, i, a, s) ->
  text_eqb a "y" = true ->
  "films.txt"%string ∉ readonly w ->
  addMaterial w =
    Done tt (mkWorld s (addMaterial_output m i (cout w))
               (<["films.txt"%string :=
                    default [] (files w !! "films.txt"%string) ++ record_text (m, fmt_general 6 i)]>
                  (files w))
               (readonly w)).
Proof.
  unfold addMaterial_input, addMaterial. intros Hin Ha Hro.
  unfold bind, out, inp. cbn [cin cout files readonly].
  destruct (getline [] (ws (cin w))) as [m' s2]. cbn [cin cout files readonly].
  destruct (get_double 0%float s2) as [i' s3]. cbn [cin cout files readonly].
  destruct (get_string (T "n") s3) as [a' s4]. cbn [cin cout files readonly].
  inversion Hin; subst. rewrite Ha.
  unfold can_write, append_file, bind. cbn [cin cout files readonly].
  rewrite bool_decide_eq_false_2 by exact Hro. cbn [negb].
  change (obuf (ostream_init |> put m |> endl |> put_double i |> endl))
    with (obuf (writeFile (mkFilm m 0%float i 0%float) ostream_init)).
  destruct (writeFile_fresh (mkFilm m 0%float i 0%float) ostream_init) as [-> _];
    reflexivity.
Qed.

Lemma file_of_app (rs : list (text * text)) (r : text * text) :
  file_of (rs ++ [r]) = file_of rs ++ record_text r.
Proof.
  unfold file_of. rewrite map_app, concat_app. cbn [map concat].
  rewrite app_nil_r. reflexivity.
Qed.

(** X17: a material added with ADD is in the library after a restart:
    loading the file again gives the old records and then the new
    one, with the index its printed text reads as. *)
Theorem add_then_reload (rs : list (text * text)) (w : World)
    (m a : text) (i : float) (s : istream) :
  addMaterial_input (cin w) = (m, i, a, s) ->
  text_eqb a "y" = true ->
  "films.txt"%string ∉ readonly w ->
  files w !! "films.txt"%string = Some (file_of rs) ->
  forallb readable_record rs = true ->
  readable_record (m, fmt_general 6 i) = true ->
  exists w',
    bind addMaterial (fun _ => loadData [] "films.txt") w =
      Done (map loaded rs ++ [loaded (m, fmt_general 6 i)]) w' /\
    files w' !! "films.txt"%string = Some (file_of (rs ++ [(m, fmt_general 6 i)])).
Proof.
  intros Hin Ha Hro Hf Hrs Hr.
  unfold bind. rewrite (addMaterial_saved w m a i s Hin Ha Hro).
  rewrite Hf. cbn [default from_option id].
  eexists. split.
  - rewrite (loadData_file (rs ++ [(m, fmt_general 6 i)]) [] [] "films.txt").
    + rewrite map_app. reflexivity.
    + rewrite forallb_app, Hrs. cbn [forallb]. rewrite Hr. reflexivity.
    + apply dropped_tail_nil.
    + cbn [files]. rewrite lookup_insert_eq, app_nil_r, file_of_app. reflexivity.
  - cbn [files]. rewrite lookup_insert_eq, file_of_app. reflexivity.
Qed.

Lemma add_then_reload_witness :
  exists w',
    bind addMaterial (fun _ => loadData [] "films.txt") (start "TiO2
2.4 y" library_file ∅) =
      Done (map loaded [(T "SiO2", T "1.46"); (T "Si3N4", T "2.05")]
              ++ [loaded (T "TiO2", fmt_general 6 2.4%float)]) w' /\
    files w' !! "films.txt"%string =
      Some (file_of ([(T "SiO2", T "1.46"); (T "Si3N4", T "2.05")]
                       ++ [(T "TiO2", fmt_general 6 2.4%float)])).
Proof.
  apply (add_then_reload [(T "SiO2", T "1.46"); (T "Si3N4", T "2.05")]
           (start "TiO2
2.4 y" library_file ∅) (T "TiO2") (T "y") 2.4%float (mkIn [] true false)).
  - vm_compute. reflexivity.
  - reflexivity.
  - unfold start. cbn [readonly]. apply not_elem_of_empty.
  - vm_compute. reflexivity.
  - vm_compute. reflexivity.
  - vm_compute. reflexivity.
Defined.
